(** * GoChat: a shallow embedding of the chat server

    The development follows the Go packages of the repository:
    - [GoStrings], [json], [os]: the few library functions the server calls,
      on the data the server hands them;
    - [protocol]: packets and payloads (internal/protocol/protocol.go);
    - [store]: the user and message store (package store);
    - [server]: clients, the Hub, the worker pool and the packet handlers
      (package server).

    Goroutines are modelled by the sequential effect of each of their steps on
    one explicit state; a channel is a bounded FIFO buffer with a closed flag;
    Go maps are [gmap]s, pointers to clients are keys of a heap. *)

From Stdlib Require Import ZArith Ascii String.
From stdpp Require Import gmap strings list fin_maps pretty.

Set Warnings "-register-all".

(* ===================================================================== *)
(** ** Library functions used by the server *)
(* ===================================================================== *)

(** Package [strings].  Case mapping is the one of ASCII letters; every other
    byte is left as it is. *)
Module GoStrings.

Definition is_upper (a : ascii) : bool :=
  Nat.leb 65 (nat_of_ascii a) && Nat.leb (nat_of_ascii a) 90.

Definition lower (a : ascii) : ascii :=
  if is_upper a then ascii_of_nat (nat_of_ascii a + 32) else a.

Fixpoint ToLower (s : string) : string :=
  match s with
  | EmptyString => EmptyString
  | String a r => String (lower a) (ToLower r)
  end.

(** [EqualFold s t]: the two strings are equal under case folding,
    compared letter by letter. *)
Fixpoint EqualFold (s t : string) : bool :=
  match s, t with
  | EmptyString, EmptyString => true
  | String a r, String b q => Ascii.eqb (lower a) (lower b) && EqualFold r q
  | _, _ => false
  end.

Fixpoint HasPrefix (s p : string) : bool :=
  match p, s with
  | EmptyString, _ => true
  | String b p', String a s' => Ascii.eqb a b && HasPrefix s' p'
  | String _ _, EmptyString => false
  end.

Fixpoint Contains (s sub : string) : bool :=
  HasPrefix s sub ||
  match s with
  | EmptyString => false
  | String _ s' => Contains s' sub
  end.

(** [filepath.Join dir name] for a one-component [name]. *)
Definition Join (dir name : string) : string := dir +:+ "/" +:+ name.

(** [strings.Index s sub]: where [sub] first occurs in [s], or -1. *)
Fixpoint Index (s sub : string) : Z :=
  if HasPrefix s sub then 0%Z
  else match s with
       | EmptyString => (-1)%Z
       | String _ s' =>
           let i := Index s' sub in
           if (i =? -1)%Z then (-1)%Z else (i + 1)%Z
       end.

End GoStrings.

(** Instants ([time.Time] values) are counted in nanoseconds from the zero
    Time (January 1, year 1, UTC); [Before] and [After] compare instants. *)
Module time.
Definition Time := Z.
Definition zero : Time := 0%Z.
Definition Before (t u : Time) : bool := (t <? u)%Z.
Definition After (t u : Time) : bool := (u <? t)%Z.
(** Nanoseconds between the zero Time and the Unix epoch. *)
Definition unix_epoch : Z := (62135596800 * 1000000000)%Z.
Definition UnixNano (t : Time) : Z := (t - unix_epoch)%Z.
End time.

(** Package [fmt]: a formatted text is kept as the call that builds it, the
    format and its arguments; [%d] alone is written out, by [Itoa]. *)
Module fmt.

Inductive Text :=
| Lit (s : string)
| Sprintf (format : string) (args : list Arg)
with Arg :=
| ArgZ (n : Z)
| ArgS (s : string)
| ArgT (t : Text).

(** [Sprintf("%d", n)]. *)
Definition Itoa (n : Z) : string := pretty n.

Definition hex_digit (n : Z) : ascii :=
  if (n <? 10)%Z then ascii_of_nat (48 + Z.to_nat n)
  else ascii_of_nat (87 + Z.to_nat n).

(** [Sprintf("%04x", n)] for [0 <= n < 65536]. *)
Definition hex4 (n : Z) : string :=
  String (hex_digit (n / 4096 mod 16))
    (String (hex_digit (n / 256 mod 16))
       (String (hex_digit (n / 16 mod 16))
          (String (hex_digit (n mod 16)) EmptyString))).

End fmt.

(** Package [encoding/json], at the level of document trees: the text of a
    file is abstracted to the tree it denotes.  [JTime t] is the JSON string
    that holds the RFC 3339 text of the instant [t]; [JStr] holds any other
    string. *)
Module json.

Inductive Value :=
| JNull
| JBool (b : bool)
| JNum (n : Z)
| JStr (s : string)
| JTime (t : time.Time)
| JArr (l : list Value)
| JObj (l : list (string * Value)).

(** Decoding of a value into a field of type string or time.Time: [null]
    leaves the field as it is, a value of another kind is a type error. *)
Definition into_string (v : Value) (old : string) : option string :=
  match v with
  | JStr s => Some s
  | JNull => Some old
  | _ => None
  end.

Definition into_time (v : Value) (old : time.Time) : option time.Time :=
  match v with
  | JTime t => Some t
  | JNull => Some old
  | _ => None
  end.

(** Decoding into an [int] field (64 bits). *)
Definition into_int (v : Value) (old : Z) : option Z :=
  match v with
  | JNum n =>
      if ((-9223372036854775808 <=? n) && (n <=? 9223372036854775807))%Z
      then Some n else None
  | JNull => Some old
  | _ => None
  end.

(** Decoding into a field of type pointer to time.Time. *)
Definition into_time_ptr (v : Value) (old : option time.Time)
  : option (option time.Time) :=
  match v with
  | JTime t => Some (Some t)
  | JNull => Some None
  | _ => None
  end.

(** [Unmarshal] of an object into a struct: the members are taken in order,
    each one stored by [set] into the field its key names (keys that name no
    field are skipped by [set]); the first type error makes the call fail. *)
Fixpoint fill {A} (set : string → Value → A → option A)
  (o : list (string * Value)) (a : A) : option A :=
  match o with
  | [] => Some a
  | (k, v) :: o' =>
      match set k v a with
      | Some a' => fill set o' a'
      | None => None
      end
  end.

(** [Unmarshal(raw, &p)] for a struct [p] that starts at [zero]; [None] as
    [raw] is the empty input. *)
Definition into_struct {A} (set : string → Value → A → option A) (zero : A)
  (raw : option Value) : option A :=
  match raw with
  | Some (JObj o) => fill set o zero
  | Some JNull => Some zero
  | _ => None
  end.

(** Decoding of an array into a slice, element by element. *)
Fixpoint into_slice {A} (elem : Value → option A) (l : list Value)
  : option (list A) :=
  match l with
  | [] => Some []
  | v :: l' =>
      match elem v, into_slice elem l' with
      | Some a, Some r => Some (a :: r)
      | _, _ => None
      end
  end.

End json.

(** Package [os]: the files of the data directory, and whether the disk
    refuses writes (the error it answers then). *)
Module os.

Record Disk := mkDisk {
  files : gmap string json.Value;
  wfault : option string
}.

Definition ReadFile (d : Disk) (path : string) : option json.Value :=
  files d !! path.

(** [WriteFile] answers the new disk and the error, if any. *)
Definition WriteFile (path : string) (data : json.Value) (d : Disk)
  : Disk * option string :=
  match wfault d with
  | Some e => (d, Some e)
  | None => (mkDisk (<[path := data]> (files d)) None, None)
  end.

End os.

(** [crypto/sha256] followed by [hex.EncodeToString]: a digest function. *)
Class Digest := sha256_hex : string → string.

(* ===================================================================== *)
(** ** Package protocol *)
(* ===================================================================== *)

Module protocol.

Definition MessageType := string.

(* Client -> Server *)
Definition TypeRegister : MessageType := "register".
Definition TypeLogin : MessageType := "login".
Definition TypeChat : MessageType := "chat".
Definition TypeSearch : MessageType := "search".
Definition TypeHistory : MessageType := "history".
Definition TypeUsers : MessageType := "users".
Definition TypeQuit : MessageType := "quit".

(* Server -> Client *)
Definition TypeResponse : MessageType := "response".
Definition TypeBroadcast : MessageType := "broadcast".
Definition TypeSystem : MessageType := "system".

Record AuthPayload := mkAuth { auth_Username : string; auth_Password : string }.

Record ChatPayload := mkChat { chat_Content : string }.

Record SearchPayload := mkSearch {
  Query : string;
  search_Username : string;
  From : option time.Time;
  To : option time.Time
}.

Record HistoryPayload := mkHistory { Limit : Z }.

Record StoredMessage := mkMsg {
  ID : string;
  UserID : string;
  Username : string;
  Content : string;
  Timestamp : time.Time
}.

Record UserInfo := mkInfo { info_UserID : string; info_Username : string }.

Record BroadcastPayload := mkBroadcast {
  bc_UserID : string;
  bc_Username : string;
  bc_Content : string;
  bc_Timestamp : time.Time
}.

(** The [data] of a response: absent, or the marshalled result. *)
Inductive Data :=
| NoData
| Messages (l : list StoredMessage)
| Users (l : list UserInfo).

Record ResponsePayload := mkResponse {
  Success : bool;
  Message : fmt.Text;
  Data_ : Data
}.

(** A server packet, as [NewPacket] builds it from a type and a payload.
    A line on a send channel is the encoding of one packet followed by a
    newline; the model keeps the packet. *)
Inductive Packet :=
| Response (p : ResponsePayload)
| Broadcast (p : BroadcastPayload)
| System (message : fmt.Text).

Definition Type_ (p : Packet) : MessageType :=
  match p with
  | Response _ => TypeResponse
  | Broadcast _ => TypeBroadcast
  | System _ => TypeSystem
  end.

(** A packet read from a client: its type and its raw payload ([None] when
    the line has no payload). *)
Record Incoming := mkIncoming {
  Type_in : MessageType;
  Payload : option json.Value
}.

(** The struct tags of the client payloads, as [json.Unmarshal] uses them. *)
Definition set_Auth (k : string) (v : json.Value) (p : AuthPayload)
  : option AuthPayload :=
  if GoStrings.EqualFold k "username" then
    s ← json.into_string v (auth_Username p); Some (mkAuth s (auth_Password p))
  else if GoStrings.EqualFold k "password" then
    s ← json.into_string v (auth_Password p); Some (mkAuth (auth_Username p) s)
  else Some p.

Definition set_Chat (k : string) (v : json.Value) (p : ChatPayload)
  : option ChatPayload :=
  if GoStrings.EqualFold k "content" then
    s ← json.into_string v (chat_Content p); Some (mkChat s)
  else Some p.

Definition set_Search (k : string) (v : json.Value) (p : SearchPayload)
  : option SearchPayload :=
  let '(mkSearch q u f t) := p in
  if GoStrings.EqualFold k "query" then
    s ← json.into_string v q; Some (mkSearch s u f t)
  else if GoStrings.EqualFold k "username" then
    s ← json.into_string v u; Some (mkSearch q s f t)
  else if GoStrings.EqualFold k "from" then
    f' ← json.into_time_ptr v f; Some (mkSearch q u f' t)
  else if GoStrings.EqualFold k "to" then
    t' ← json.into_time_ptr v t; Some (mkSearch q u f t')
  else Some p.

Definition set_History (k : string) (v : json.Value) (p : HistoryPayload)
  : option HistoryPayload :=
  if GoStrings.EqualFold k "limit" then
    n ← json.into_int v (Limit p); Some (mkHistory n)
  else Some p.

End protocol.

(* ===================================================================== *)
(** ** Package store *)
(* ===================================================================== *)

Module store.

Import GoStrings.

Record User := mkUser {
  ID : string;
  Username : string;
  PasswordHash : string;
  CreatedAt : time.Time
}.

Record Store := mkStore {
  users : gmap string User;                  (* keyed by lower-case username *)
  byID : gmap string User;                   (* keyed by user ID *)
  messages : list protocol.StoredMessage;    (* ordered by insertion time *)
  dataDir : string
}.

(** The errors of the package. *)
Definition errTaken (username : string) : fmt.Text :=
  fmt.Sprintf "username %q is already taken" [fmt.ArgS username].
Definition errNotFound (username : string) : fmt.Text :=
  fmt.Sprintf "user %q not found" [fmt.ArgS username].
Definition errPassword : fmt.Text := fmt.Lit "incorrect password".
Definition errParse (file : string) : fmt.Text :=
  fmt.Sprintf "store: parse %s: %w" [fmt.ArgS file].

(** *** JSON form of the two datasets (the struct tags) *)

Definition marshal_User (u : User) : json.Value :=
  json.JObj [("id", json.JStr (ID u));
             ("username", json.JStr (Username u));
             ("password_hash", json.JStr (PasswordHash u));
             ("created_at", json.JTime (CreatedAt u))].

Definition set_User (k : string) (v : json.Value) (u : User) : option User :=
  if EqualFold k "id" then
    s ← json.into_string v (ID u);
    Some (mkUser s (Username u) (PasswordHash u) (CreatedAt u))
  else if EqualFold k "username" then
    s ← json.into_string v (Username u);
    Some (mkUser (ID u) s (PasswordHash u) (CreatedAt u))
  else if EqualFold k "password_hash" then
    s ← json.into_string v (PasswordHash u);
    Some (mkUser (ID u) (Username u) s (CreatedAt u))
  else if EqualFold k "created_at" then
    t ← json.into_time v (CreatedAt u);
    Some (mkUser (ID u) (Username u) (PasswordHash u) t)
  else Some u.

Definition zero_User : User := mkUser "" "" "" time.zero.

(** An element of a users file; [null] would be a nil pointer, which [load]
    cannot use: it is refused here. *)
Definition unmarshal_User (v : json.Value) : option User :=
  match v with
  | json.JObj o => json.fill set_User o zero_User
  | _ => None
  end.

Definition marshal_Message (m : protocol.StoredMessage) : json.Value :=
  json.JObj [("id", json.JStr (protocol.ID m));
             ("user_id", json.JStr (protocol.UserID m));
             ("username", json.JStr (protocol.Username m));
             ("content", json.JStr (protocol.Content m));
             ("timestamp", json.JTime (protocol.Timestamp m))].

Definition set_Message (k : string) (v : json.Value)
  (m : protocol.StoredMessage) : option protocol.StoredMessage :=
  let '(protocol.mkMsg i ui un c t) := m in
  if EqualFold k "id" then
    s ← json.into_string v i; Some (protocol.mkMsg s ui un c t)
  else if EqualFold k "user_id" then
    s ← json.into_string v ui; Some (protocol.mkMsg i s un c t)
  else if EqualFold k "username" then
    s ← json.into_string v un; Some (protocol.mkMsg i ui s c t)
  else if EqualFold k "content" then
    s ← json.into_string v c; Some (protocol.mkMsg i ui un s t)
  else if EqualFold k "timestamp" then
    t' ← json.into_time v t; Some (protocol.mkMsg i ui un c t')
  else Some m.

Definition zero_Message : protocol.StoredMessage :=
  protocol.mkMsg "" "" "" "" time.zero.

Definition unmarshal_Message (v : json.Value) : option protocol.StoredMessage :=
  match v with
  | json.JObj o => json.fill set_Message o zero_Message
  | _ => None
  end.

(** [json.Unmarshal(data, &slice)]. *)
Definition unmarshal_slice {A} (elem : json.Value → option A) (data : json.Value)
  : option (list A) :=
  match data with
  | json.JArr l => json.into_slice elem l
  | json.JNull => Some []
  | _ => None
  end.

(** *** Helpers *)

Definition writeJSON (path : string) (v : json.Value) (d : os.Disk)
  : os.Disk * option fmt.Text :=
  let '(d', err) := os.WriteFile path v d in
  (d', fmt.Lit <$> err).

Definition hashPassword `{Digest} (pw : string) : string := sha256_hex pw.

(** [generateID], from the clock and the random number it reads. *)
Definition generateID (clock : time.Time) (rnd : Z) : string :=
  fmt.Itoa (time.UnixNano clock) +:+ "-" +:+ fmt.hex4 rnd.

(** [saveUsersLocked], the users being ranged over in the order [us]. *)
Definition saveUsers_in (us : list User) (s : Store) (d : os.Disk)
  : os.Disk * option fmt.Text :=
  writeJSON (Join (dataDir s) "users.json") (json.JArr (marshal_User <$> us)) d.

Definition saveUsersLocked (s : Store) (d : os.Disk)
  : os.Disk * option fmt.Text :=
  saveUsers_in ((map_to_list (users s)).*2) s d.

Definition saveMessagesLocked (s : Store) (d : os.Disk)
  : os.Disk * option fmt.Text :=
  writeJSON (Join (dataDir s) "messages.json")
    (json.JArr (marshal_Message <$> messages s)) d.

Definition add_loaded (s : Store) (u : User) : Store :=
  mkStore (<[ToLower (Username u) := u]> (users s))
          (<[ID u := u]> (byID s))
          (messages s) (dataDir s).

Definition load (s : Store) (d : os.Disk) : Store * option fmt.Text :=
  let users_step :=
    match os.ReadFile d (Join (dataDir s) "users.json") with
    | Some data =>
        match unmarshal_slice unmarshal_User data with
        | None => (s, Some (errParse "users.json"))
        | Some us => (foldl add_loaded s us, None)
        end
    | None => (s, None)
    end in
  match users_step with
  | (s1, Some e) => (s1, Some e)
  | (s1, None) =>
      match os.ReadFile d (Join (dataDir s1) "messages.json") with
      | Some data =>
          match unmarshal_slice unmarshal_Message data with
          | None => (s1, Some (errParse "messages.json"))
          | Some ms => (mkStore (users s1) (byID s1) ms (dataDir s1), None)
          end
      | None => (s1, None)
      end
  end.

(** [New]: the store of a data directory that exists. *)
Definition New (dir : string) (d : os.Disk) : option Store * option fmt.Text :=
  match load (mkStore ∅ ∅ [] dir) d with
  | (_, Some e) => (None, Some e)
  | (s, None) => (Some s, None)
  end.

(** *** Operations *)

(** [RegisterUser]; [clock_id] and [rnd] are what [generateID] reads,
    [clock] is the later reading for [CreatedAt]. *)
Definition RegisterUser `{Digest} (clock_id : time.Time) (rnd : Z)
  (clock : time.Time) (username password : string) (s : Store) (d : os.Disk)
  : Store * os.Disk * (option User * option fmt.Text) :=
  let key := ToLower username in
  match users s !! key with
  | Some _ => (s, d, (None, Some (errTaken username)))
  | None =>
      let u := mkUser (generateID clock_id rnd) username
                 (hashPassword password) clock in
      let s' := mkStore (<[key := u]> (users s)) (<[ID u := u]> (byID s))
                  (messages s) (dataDir s) in
      let '(d', err) := saveUsersLocked s' d in
      (s', d', (Some u, err))
  end.

Definition Authenticate `{Digest} (username password : string) (s : Store)
  : option User * option fmt.Text :=
  match users s !! ToLower username with
  | None => (None, Some (errNotFound username))
  | Some u =>
      if String.eqb (PasswordHash u) (hashPassword password)
      then (Some u, None)
      else (None, Some errPassword)
  end.

Definition SaveMessage (msg : protocol.StoredMessage) (s : Store) (d : os.Disk)
  : Store * os.Disk * option fmt.Text :=
  let s' := mkStore (users s) (byID s) (messages s ++ [msg]) (dataDir s) in
  let '(d', err) := saveMessagesLocked s' d in
  (s', d', err).

(** [GetHistory]: [messages[total-n:]] is [drop (total - n)]. *)
Definition GetHistory (n : Z) (s : Store) : list protocol.StoredMessage :=
  let total := Z.of_nat (length (messages s)) in
  if ((n <=? 0) || (total <=? n))%Z then messages s
  else drop (Z.to_nat (total - n)) (messages s).

(** One turn of the loop of [Search]: [true] when [m] is kept. *)
Definition keeps (q u : string) (from to : option time.Time)
  (m : protocol.StoredMessage) : bool :=
  if negb (String.eqb q "") && negb (Contains (ToLower (protocol.Content m)) q)
  then false
  else if negb (String.eqb u "") && negb (EqualFold (protocol.Username m) u)
  then false
  else if match from with
          | Some f => time.Before (protocol.Timestamp m) f
          | None => false
          end
  then false
  else if match to with
          | Some t => time.After (protocol.Timestamp m) t
          | None => false
          end
  then false
  else true.

Fixpoint Search_loop (q u : string) (from to : option time.Time)
  (ms out : list protocol.StoredMessage) : list protocol.StoredMessage :=
  match ms with
  | [] => out
  | m :: ms' =>
      if keeps q u from to m
      then Search_loop q u from to ms' (out ++ [m])
      else Search_loop q u from to ms' out
  end.

Definition Search (query username : string) (from to : option time.Time)
  (s : Store) : list protocol.StoredMessage :=
  let q := ToLower query in
  let u := ToLower username in
  Search_loop q u from to (messages s) [].

End store.

(* ===================================================================== *)
(** ** Package server *)
(* ===================================================================== *)

Module server.

Import GoStrings.

(** *** Channels *)

Record Chan (A : Type) := mkChan {
  buf : list A;
  cap : nat;
  closed : bool
}.
Arguments mkChan {A} _ _ _.
Arguments buf {A} _.
Arguments cap {A} _.
Arguments closed {A} _.

Definition make {A} (n : nat) : Chan A := mkChan [] n false.

(** [select { case ch <- x: default: }]: the send is taken when the buffer
    has room; a send on a closed channel panics. *)
Inductive Sent (A : Type) :=
| SendOk (ch : Chan A)
| SendFull
| SendPanic.
Arguments SendOk {A} _.
Arguments SendFull {A}.
Arguments SendPanic {A}.

Definition try_send {A} (x : A) (ch : Chan A) : Sent A :=
  if closed ch then SendPanic
  else if length (buf ch) <? cap ch
       then SendOk (mkChan (buf ch ++ [x]) (cap ch) false)
       else SendFull.

(** [close(ch)]; closing a closed channel panics ([None]). *)
Definition close {A} (ch : Chan A) : option (Chan A) :=
  if closed ch then None else Some (mkChan (buf ch) (cap ch) true).

(** *** State *)

Definition sendBufSize : nat := 256.

(** A pointer to a client. *)
Definition ptr := nat.

Record Client := mkClient {
  id : string;                      (* unique connection identifier *)
  conn_closed : bool;               (* conn.Close() has been called *)
  send : Chan protocol.Packet;      (* outbound packets *)
  userID : string;
  username : string
}.

Record Hub := mkHub {
  clients : gmap ptr bool;
  broadcast : Chan protocol.Packet;
  done : bool;                      (* the done channel is closed *)
  returned : bool                   (* Run has returned *)
}.

Definition newHub : Hub := mkHub ∅ (make 256) false false.

Record workerPool := mkPool {
  jobs : Chan protocol.StoredMessage
}.

Record State := mkState {
  heap : gmap ptr Client;
  hub : Hub;
  store_ : store.Store;
  disk : os.Disk;
  pool : workerPool;
  online : gmap string ptr;         (* userID -> Client *)
  connID : nat;
  log : list fmt.Text
}.

Definition set_heap (f : gmap ptr Client → gmap ptr Client) (s : State) :=
  mkState (f (heap s)) (hub s) (store_ s) (disk s) (pool s) (online s)
    (connID s) (log s).
Definition set_hub (f : Hub → Hub) (s : State) :=
  mkState (heap s) (f (hub s)) (store_ s) (disk s) (pool s) (online s)
    (connID s) (log s).
Definition set_store (st : store.Store) (d : os.Disk) (s : State) :=
  mkState (heap s) (hub s) st d (pool s) (online s) (connID s) (log s).
Definition set_pool (p : workerPool) (s : State) :=
  mkState (heap s) (hub s) (store_ s) (disk s) p (online s) (connID s) (log s).
Definition set_online (f : gmap string ptr → gmap string ptr) (s : State) :=
  mkState (heap s) (hub s) (store_ s) (disk s) (pool s) (f (online s))
    (connID s) (log s).
Definition set_connID (n : nat) (s : State) :=
  mkState (heap s) (hub s) (store_ s) (disk s) (pool s) (online s) n (log s).

Definition set_clients (f : gmap ptr bool → gmap ptr bool) (h : Hub) : Hub :=
  mkHub (f (clients h)) (broadcast h) (done h) (returned h).
Definition set_broadcast (ch : Chan protocol.Packet) (h : Hub) : Hub :=
  mkHub (clients h) ch (done h) (returned h).

Definition set_send (ch : Chan protocol.Packet) (c : Client) : Client :=
  mkClient (id c) (conn_closed c) ch (userID c) (username c).

(** *** The effect of a piece of code on the state *)

(** A piece of code ends with a result, or stays blocked on a channel, or
    panics. *)
Inductive Outcome (A : Type) :=
| Ret (a : A) (s : State)
| Block (s : State)
| Panic.
Arguments Ret {A} _ _.
Arguments Block {A} _.
Arguments Panic {A}.

Definition M (A : Type) := State → Outcome A.

#[global] Instance M_ret : MRet M := λ A a s, Ret a s.
#[global] Instance M_bind : MBind M := λ A B f m s,
  match m s with
  | Ret a s' => f a s'
  | Block s' => Block s'
  | Panic => Panic
  end.

Definition get : M State := λ s, Ret s s.
Definition modify (f : State → State) : M unit := λ s, Ret tt (f s).
Definition panic {A} : M A := λ _, Panic.
Definition block {A} : M A := λ s, Block s.

Definition printf (format : string) (args : list fmt.Arg) : M unit :=
  modify (λ s, mkState (heap s) (hub s) (store_ s) (disk s) (pool s)
                 (online s) (connID s) (log s ++ [fmt.Sprintf format args])).

(** Reading through a client pointer. *)
Definition deref (c : ptr) : M Client := λ s,
  match heap s !! c with
  | Some cl => Ret cl s
  | None => Panic
  end.

Definition store_client (c : ptr) (cl : Client) : M unit :=
  modify (set_heap (<[c := cl]>)).

(** A loop [for x := range ...] over the elements [l]. *)
Fixpoint for_each {A} (l : list A) (body : A → M unit) : M unit :=
  match l with
  | [] => mret tt
  | x :: l' => body x ≫= λ _, for_each l' body
  end.

(** *** Client (the client file of the package) *)

Definition newClient (ident : string) : Client :=
  mkClient ident false (make sendBufSize) "" "".

Definition isAuthenticated (c : ptr) : M bool :=
  cl ← deref c; mret (negb (String.eqb (userID cl) "")).

Definition setIdentity (c : ptr) (uid uname : string) : M unit :=
  cl ← deref c;
  store_client c (mkClient (id cl) (conn_closed cl) (send cl) uid uname).

(** [c.conn.Close()]. *)
Definition conn_Close (c : ptr) : M unit :=
  cl ← deref c;
  store_client c (mkClient (id cl) true (send cl) (userID cl) (username cl)).

(** [sendPacket]: non-blocking; the packet is dropped when the buffer is
    full. *)
Definition sendPacket (c : ptr) (pkt : protocol.Packet) : M unit :=
  cl ← deref c;
  match try_send pkt (send cl) with
  | SendOk ch => store_client c (set_send ch cl)
  | SendFull => mret tt
  | SendPanic => panic
  end.

Definition sendResponse (c : ptr) (success : bool) (msg : fmt.Text)
  (data : protocol.Data) : M unit :=
  sendPacket c (protocol.Response (protocol.mkResponse success msg data)).

Definition sendError (c : ptr) (msg : fmt.Text) : M unit :=
  sendPacket c (protocol.Response
    (protocol.mkResponse false (fmt.Sprintf "error: %s" [fmt.ArgT msg])
       protocol.NoData)).

Definition sendSystem (c : ptr) (msg : fmt.Text) : M unit :=
  sendPacket c (protocol.System msg).

(** *** Hub *)

(** The events [Run] selects on. *)
Inductive Event :=
| EvRegister (c : ptr)
| EvUnregister (c : ptr)
| EvBroadcast
| EvDone.

Definition Run_register (c : ptr) : M unit :=
  modify (set_hub (set_clients (<[c := true]>)));;
  cl ← deref c;
  s ← get;
  printf "[hub] +client %s (%s)  total=%d"
    [fmt.ArgS (username cl); fmt.ArgS (id cl);
     fmt.ArgZ (Z.of_nat (size (clients (hub s))))].

Definition Run_unregister (c : ptr) : M unit :=
  s ← get;
  match clients (hub s) !! c with
  | Some _ =>
      modify (set_hub (set_clients (delete c)));;
      cl ← deref c;
      match close (send cl) with
      | None => panic
      | Some ch =>
          store_client c (set_send ch cl);;
          s' ← get;
          printf "[hub] -client %s (%s)  total=%d"
            [fmt.ArgS (username cl); fmt.ArgS (id cl);
             fmt.ArgZ (Z.of_nat (size (clients (hub s'))))]
      end
  | None => mret tt
  end.

(** The body of the loop of the broadcast case, for one client. *)
Definition deliver (data : protocol.Packet) (c : ptr) : M unit :=
  cl ← deref c;
  match try_send data (send cl) with
  | SendOk ch => store_client c (set_send ch cl)
  | SendFull =>
      (* Client is not draining its send channel; drop it. *)
      modify (set_hub (set_clients (delete c)));;
      match close (send cl) with
      | None => panic
      | Some ch =>
          store_client c (set_send ch cl);;
          printf "[hub] dropped slow client %s" [fmt.ArgS (username cl)]
      end
  | SendPanic => panic
  end.

(** The broadcast case for the packet [data], the live clients being ranged
    over in the order [order]. *)
Definition Run_broadcast (order : list ptr) (data : protocol.Packet) : M unit :=
  for_each order (deliver data).

Definition Run_done (order : list ptr) : M unit :=
  for_each order (λ c,
    cl ← deref c;
    match close (send cl) with
    | None => panic
    | Some ch => store_client c (set_send ch cl)
    end);;
  modify (set_hub (λ h, mkHub (clients h) (broadcast h) (done h) true)).

(** [order] is an order in which a [range] may visit the keys of [m]. *)
Definition ranges {K} `{Countable K} {V} (order : list K) (m : gmap K V) : Prop :=
  order ≡ₚ (map_to_list m).*1.

(** One turn of the loop of [Run] on the event [ev]: a turn needs [Run] not
    to have returned, a packet in the broadcast channel for [EvBroadcast],
    and the done channel closed for [EvDone]. *)
Definition Run_turn (ev : Event) (order : list ptr) : M unit :=
  s ← get;
  if returned (hub s) then block
  else
    match ev with
    | EvRegister c => Run_register c
    | EvUnregister c => Run_unregister c
    | EvBroadcast =>
        match buf (broadcast (hub s)) with
        | [] => block
        | data :: rest =>
            modify (set_hub (set_broadcast
              (mkChan rest (cap (broadcast (hub s)))
                 (closed (broadcast (hub s))))));;
            Run_broadcast order data
        end
    | EvDone => if done (hub s) then Run_done order else block
    end.

(** [Stop]. *)
Definition Stop : M unit :=
  s ← get;
  if done (hub s) then panic
  else modify (set_hub (λ h, mkHub (clients h) (broadcast h) true (returned h))).

(** A blocking send on the broadcast channel of the Hub. *)
Definition hub_broadcast_send (data : protocol.Packet) : M unit :=
  s ← get;
  let ch := broadcast (hub s) in
  if closed ch then panic
  else if length (buf ch) <? cap ch
       then modify (set_hub (set_broadcast
              (mkChan (buf ch ++ [data]) (cap ch) false)))
       else block.

(** *** Worker pool *)

Definition newWorkerPool : workerPool := mkPool (make 1024).

(** [submit]: non-blocking; the job is dropped when the queue is full. *)
Definition submit (msg : protocol.StoredMessage) : M unit :=
  s ← get;
  match try_send msg (jobs (pool s)) with
  | SendOk ch => modify (set_pool (mkPool ch))
  | SendFull =>
      printf "[pool] job queue full - message dropped from persistence" []
  | SendPanic => panic
  end.

(** One turn of the loop of a worker: it takes the next job, saves it and
    logs the error of the store, if any.  With no job left the worker waits,
    or leaves the loop when the queue is closed. *)
Definition worker_turn : M unit :=
  s ← get;
  let ch := jobs (pool s) in
  match buf ch with
  | [] => if closed ch then mret tt else block
  | msg :: rest =>
      modify (set_pool (mkPool (mkChan rest (cap ch) (closed ch))));;
      let '(st', d', err) := store.SaveMessage msg (store_ s) (disk s) in
      modify (set_store st' d');;
      match err with
      | Some e => printf "[store] save error: %v" [fmt.ArgT e]
      | None => mret tt
      end
  end.

(** *** Server *)

(** What a handler reads from the clock and the random source. *)
Record Env := mkEnv {
  clock_id : time.Time;     (* time.Now() inside generateID *)
  rnd : Z;                  (* rand.Intn(0xFFFF) *)
  clock : time.Time         (* time.Now().UTC() *)
}.

(** [New], given the disk. *)
Definition New (dataDir : string) (d : os.Disk) : option State * option fmt.Text :=
  match store.New dataDir d with
  | (Some st, _) =>
      (Some (mkState ∅ newHub st d newWorkerPool ∅ 0 []), None)
  | (None, err) => (None, err)
  end.

Definition addOnline (c : ptr) : M unit :=
  cl ← deref c;
  modify (set_online (<[userID cl := c]>)).

Definition removeOnline (c : ptr) : M unit :=
  auth ← isAuthenticated c;
  if negb auth then mret tt
  else
    cl ← deref c;
    modify (set_online (delete (userID cl))).

(** The loop of [onlineUsers] over the clients [cs] of the index. *)
Fixpoint onlineUsers_loop (cs : list ptr) (out : list protocol.UserInfo)
  : M (list protocol.UserInfo) :=
  match cs with
  | [] => mret out
  | c :: cs' =>
      cl ← deref c;
      onlineUsers_loop cs' (out ++ [protocol.mkInfo (userID cl) (username cl)])
  end.

(** [onlineUsers]; the index is ranged over in the order of [map_to_list]. *)
Definition onlineUsers : M (list protocol.UserInfo) :=
  s ← get;
  onlineUsers_loop ((map_to_list (online s)).*2) [].

(** [broadcastSystem] sends a system notice to every connected client. *)
Definition broadcastSystem (msg : fmt.Text) : M unit :=
  hub_broadcast_send (protocol.System msg).

Definition zero_Auth := protocol.mkAuth "" "".
Definition zero_Chat := protocol.mkChat "".
Definition zero_Search := protocol.mkSearch "" "" None None.
Definition zero_History := protocol.mkHistory 0.

Definition handleRegister `{Digest} (e : Env) (c : ptr) (raw : option json.Value)
  : M unit :=
  match json.into_struct protocol.set_Auth zero_Auth raw with
  | None => sendError c (fmt.Lit "register requires {username, password}")
  | Some p =>
      if String.eqb (protocol.auth_Username p) ""
         || String.eqb (protocol.auth_Password p) ""
      then sendError c (fmt.Lit "register requires {username, password}")
      else
        s ← get;
        let '(st', d', (u, err)) :=
          store.RegisterUser (clock_id e) (rnd e) (clock e)
            (protocol.auth_Username p) (protocol.auth_Password p)
            (store_ s) (disk s) in
        modify (set_store st' d');;
        match err, u with
        | Some er, _ => sendError c er
        | None, None => panic
        | None, Some u =>
            setIdentity c (store.ID u) (store.Username u);;
            addOnline c;;
            sendResponse c true
              (fmt.Sprintf "registered and logged in as %q"
                 [fmt.ArgS (store.Username u)]) protocol.NoData;;
            broadcastSystem
              (fmt.Sprintf "%s joined the chat" [fmt.ArgS (store.Username u)]);;
            printf "[server] registered %s (%s)"
              [fmt.ArgS (store.Username u); fmt.ArgS (store.ID u)]
        end
  end.

Definition handleLogin `{Digest} (c : ptr) (raw : option json.Value) : M unit :=
  match json.into_struct protocol.set_Auth zero_Auth raw with
  | None => sendError c (fmt.Lit "login requires {username, password}")
  | Some p =>
      if String.eqb (protocol.auth_Username p) ""
         || String.eqb (protocol.auth_Password p) ""
      then sendError c (fmt.Lit "login requires {username, password}")
      else
        s ← get;
        match store.Authenticate (protocol.auth_Username p)
                (protocol.auth_Password p) (store_ s) with
        | (_, Some er) => sendError c er
        | (None, None) => panic
        | (Some u, None) =>
            setIdentity c (store.ID u) (store.Username u);;
            addOnline c;;
            sendResponse c true
              (fmt.Sprintf "logged in as %q" [fmt.ArgS (store.Username u)])
              protocol.NoData;;
            broadcastSystem
              (fmt.Sprintf "%s joined the chat" [fmt.ArgS (store.Username u)]);;
            printf "[server] login %s (%s)"
              [fmt.ArgS (store.Username u); fmt.ArgS (store.ID u)]
        end
  end.

Definition handleChat (e : Env) (c : ptr) (raw : option json.Value) : M unit :=
  auth ← isAuthenticated c;
  if negb auth then sendError c (fmt.Lit "you must login or register first")
  else
    match json.into_struct protocol.set_Chat zero_Chat raw with
    | None => sendError c (fmt.Lit "chat requires {content}")
    | Some p =>
        if String.eqb (protocol.chat_Content p) ""
        then sendError c (fmt.Lit "chat requires {content}")
        else
          cl ← deref c;
          let now := clock e in
          let msg := protocol.mkMsg (fmt.Itoa (time.UnixNano now))
                       (userID cl) (username cl) (protocol.chat_Content p) now in
          (* 1. Broadcast immediately to all connected clients (fast path). *)
          hub_broadcast_send
            (protocol.Broadcast
               (protocol.mkBroadcast (protocol.UserID msg) (protocol.Username msg)
                  (protocol.Content msg) (protocol.Timestamp msg)));;
          (* 2. Persist asynchronously via the worker pool (slow path). *)
          submit msg
    end.

Definition handleSearch (c : ptr) (raw : option json.Value) : M unit :=
  auth ← isAuthenticated c;
  if negb auth then sendError c (fmt.Lit "you must login first")
  else
    match json.into_struct protocol.set_Search zero_Search raw with
    | None => sendError c (fmt.Lit "malformed search payload")
    | Some p =>
        if String.eqb (protocol.Query p) ""
           && String.eqb (protocol.search_Username p) ""
           && negb (bool_decide (is_Some (protocol.From p)))
           && negb (bool_decide (is_Some (protocol.To p)))
        then sendError c (fmt.Lit
               "provide at least one search criterion (query, username, from, or to)")
        else
          s ← get;
          let results := store.Search (protocol.Query p)
                           (protocol.search_Username p) (protocol.From p)
                           (protocol.To p) (store_ s) in
          sendResponse c true
            (fmt.Sprintf "%d result(s)" [fmt.ArgZ (Z.of_nat (length results))])
            (protocol.Messages results)
    end.

Definition handleHistory (c : ptr) (raw : option json.Value) : M unit :=
  auth ← isAuthenticated c;
  if negb auth then sendError c (fmt.Lit "you must login first")
  else
    let p := match json.into_struct protocol.set_History zero_History raw with
             | None => protocol.mkHistory 20
             | Some p => p
             end in
    let p := if (protocol.Limit p <=? 0)%Z then protocol.mkHistory 20 else p in
    s ← get;
    let msgs := store.GetHistory (protocol.Limit p) (store_ s) in
    sendResponse c true
      (fmt.Sprintf "last %d message(s)" [fmt.ArgZ (Z.of_nat (length msgs))])
      (protocol.Messages msgs).

Definition handleUsers (c : ptr) : M unit :=
  auth ← isAuthenticated c;
  if negb auth then sendError c (fmt.Lit "you must login first")
  else
    users ← onlineUsers;
    sendResponse c true
      (fmt.Sprintf "%d user(s) online" [fmt.ArgZ (Z.of_nat (length users))])
      (protocol.Users users).

Definition handlePacket `{Digest} (e : Env) (c : ptr) (pkt : protocol.Incoming)
  : M unit :=
  let t := protocol.Type_in pkt in
  if String.eqb t protocol.TypeRegister then handleRegister e c (protocol.Payload pkt)
  else if String.eqb t protocol.TypeLogin then handleLogin c (protocol.Payload pkt)
  else if String.eqb t protocol.TypeChat then handleChat e c (protocol.Payload pkt)
  else if String.eqb t protocol.TypeSearch then handleSearch c (protocol.Payload pkt)
  else if String.eqb t protocol.TypeHistory then handleHistory c (protocol.Payload pkt)
  else if String.eqb t protocol.TypeUsers then handleUsers c
  else if String.eqb t protocol.TypeQuit then conn_Close c
  else sendError c (fmt.Sprintf "unknown packet type %q" [fmt.ArgS t]).

(** [serveConn] up to the call of [readPump]: the new client is the one of
    the next connection number, which also stands for its address; the send
    on the register channel is taken by a turn of [Run]. *)
Definition serveConn : M ptr :=
  s ← get;
  let n := S (connID s) in
  modify (set_connID n);;
  modify (set_heap (<[n := newClient ("conn-" +:+ fmt.Itoa (Z.of_nat n))]>));;
  Run_turn (EvRegister n) [];;
  sendSystem n
    (fmt.Lit "Welcome to GoChat! Use /register or /login to get started.");;
  mret n.

(** The deferred function of [readPump], run when the connection drops; the
    send on the unregister channel is taken by a turn of [Run]. *)
Definition readPump_exit (c : ptr) : M unit :=
  Run_turn (EvUnregister c) [];;
  removeOnline c;;
  conn_Close c.

(** One turn of the loop of [readPump] on the line read: [None] is a line
    that is not the JSON of a packet. *)
Definition readPump_turn `{Digest} (e : Env) (c : ptr)
  (line : option protocol.Incoming) : M unit :=
  match line with
  | None => sendError c (fmt.Lit "malformed packet")
  | Some pkt => handlePacket e c pkt
  end.

(** [stop] of the pool closes the job queue; the wait that follows lasts
    until the workers have left their loops. *)
Definition stop : M unit :=
  s ← get;
  match close (jobs (pool s)) with
  | None => panic
  | Some ch => modify (set_pool (mkPool ch))
  end.

(** [n] turns of the loop of a worker. *)
Fixpoint worker_turns (n : nat) : M unit :=
  match n with
  | 0 => mret tt
  | S n' => worker_turn;; worker_turns n'
  end.

End server.

(* ===================================================================== *)
(** ** The client program (cmd/client) *)
(* ===================================================================== *)

Module client.

Import GoStrings.

(** The double quote. *)
Definition dquote : string := String (ascii_of_nat 34) EmptyString.

(** [s[from:]] and [s[from:to]]. *)
Definition slice_from (s : string) (from : Z) : string :=
  substring (Z.to_nat from) (String.length s - Z.to_nat from) s.
Definition slice (s : string) (from to : Z) : string :=
  substring (Z.to_nat from) (Z.to_nat to - Z.to_nat from) s.

(** [extractQuoted] returns the first double-quoted string in [s]. *)
Definition extractQuoted (s : string) : string :=
  let start := Index s dquote in
  if (start =? -1)%Z then ""
  else
    let end_ := Index (slice_from s (start + 1)) dquote in
    if (end_ =? -1)%Z then ""
    else slice s (start + 1) (start + 1 + end_).

End client.

(* ===================================================================== *)
(** ** Observations on a state, used to state the properties *)
(* ===================================================================== *)

Module obs.

Import server.

(** The packets queued for the client [c]. *)
Definition outbox (s : State) (c : ptr) : list protocol.Packet :=
  match heap s !! c with
  | Some cl => buf (send cl)
  | None => []
  end.

(** [c] is in the live set of the Hub. *)
Definition live (s : State) (c : ptr) : Prop := is_Some (clients (hub s) !! c).

(** The send channel of [c] is open / closed. *)
Definition send_open (s : State) (c : ptr) : Prop :=
  ∃ cl, heap s !! c = Some cl ∧ closed (send cl) = false.
Definition send_closed (s : State) (c : ptr) : Prop :=
  ∃ cl, heap s !! c = Some cl ∧ closed (send cl) = true.

(** The send channel of [c] has room for one more packet / is full. *)
Definition has_room (s : State) (c : ptr) : Prop :=
  ∃ cl, heap s !! c = Some cl ∧ length (buf (send cl)) < cap (send cl).
Definition is_full (s : State) (c : ptr) : Prop :=
  ∃ cl, heap s !! c = Some cl ∧ cap (send cl) ≤ length (buf (send cl)).

(** [c] has an identity. *)
Definition authenticated (s : State) (c : ptr) : Prop :=
  ∃ cl, heap s !! c = Some cl ∧ userID cl ≠ "".
Definition unauthenticated (s : State) (c : ptr) : Prop :=
  ∃ cl, heap s !! c = Some cl ∧ userID cl = "".

(** Every live client is a client of the heap whose send channel is open:
    the Hub closes a send channel only as it removes its client. *)
Definition hub_ok (s : State) : Prop :=
  ∀ c, live s c → send_open s c.

(** The state [s] with the packet [pkt] queued for [c] (a client of the heap
    whose channel has room). *)
Definition queued (c : ptr) (pkt : protocol.Packet) (s : State) : State :=
  match heap s !! c with
  | Some cl =>
      set_heap (<[c := set_send (mkChan (buf (send cl) ++ [pkt])
                                    (cap (send cl)) false) cl]>) s
  | None => s
  end.

(** The state [s] once [pkt] has been offered to [c] by a non-blocking
    send: queued when the channel has room, dropped otherwise. *)
Definition offered (c : ptr) (pkt : protocol.Packet) (s : State) : State :=
  match heap s !! c with
  | Some cl =>
      if length (buf (send cl)) <? cap (send cl) then queued c pkt s else s
  | None => s
  end.

(** The connection of [c] has been closed by the server. *)
Definition conn_is_closed (s : State) (c : ptr) : Prop :=
  ∃ cl, heap s !! c = Some cl ∧ conn_closed cl = true.

(** An error response: [success] is false and there is no data. *)
Definition error_response (msg : fmt.Text) : protocol.Packet :=
  protocol.Response
    (protocol.mkResponse false (fmt.Sprintf "error: %s" [fmt.ArgT msg])
       protocol.NoData).

(** The response that carries a list of messages. *)
Definition messages_response (format : string) (msgs : list protocol.StoredMessage)
  : protocol.Packet :=
  protocol.Response
    (protocol.mkResponse true
       (fmt.Sprintf format [fmt.ArgZ (Z.of_nat (length msgs))])
       (protocol.Messages msgs)).

(** The limit [handleHistory] hands to the store for the payload [raw]. *)
Definition limit_of (raw : option json.Value) : Z :=
  let p := match json.into_struct protocol.set_History zero_History raw with
           | None => protocol.mkHistory 20
           | Some p => p
           end in
  protocol.Limit (if (protocol.Limit p <=? 0)%Z then protocol.mkHistory 20 else p).

(** The users map is keyed by lower-case username. *)
Definition keyed (s : store.Store) : Prop :=
  ∀ k u, store.users s !! k = Some u → k = GoStrings.ToLower (store.Username u).


(** What [onlineUsers] reports for the client [c]. *)
Definition identity (s : State) (c : ptr) : protocol.UserInfo :=
  match heap s !! c with
  | Some cl => protocol.mkInfo (userID cl) (username cl)
  | None => protocol.mkInfo "" ""
  end.

(** The clients of the online index are clients of the heap. *)
Definition index_valid (s : State) : Prop :=
  ∀ k c, online s !! k = Some c → is_Some (heap s !! c).



End obs.

(* ===================================================================== *)
(** ** Sample data *)
(* ===================================================================== *)

Module sample.

Import server.

(** A digest function to run the examples with. *)
Definition digest : Digest := λ pw, "sha256:" +:+ pw.

Definition disk_ok : os.Disk := os.mkDisk ∅ None.
Definition disk_ro : os.Disk := os.mkDisk ∅ (Some "read-only file system").

Definition t1 : time.Time := 1000%Z.
Definition t2 : time.Time := 2000%Z.
Definition t3 : time.Time := 3000%Z.

Definition m1 := protocol.mkMsg "1" "u-alice" "alice" "hello world" t1.
Definition m2 := protocol.mkMsg "2" "u-bob" "bob" "goodbye" t2.
Definition m3 := protocol.mkMsg "3" "u-alice" "alice" "hello again" t3.

Definition alice : store.User := store.mkUser "u-alice" "Alice" "sha256:pw" 10%Z.
Definition bob : store.User := store.mkUser "u-bob" "bob" "sha256:pw2" 20%Z.

Definition empty_store : store.Store := store.mkStore ∅ ∅ [] "data".

(** A store with two accounts and three messages. *)
Definition store3 : store.Store :=
  store.mkStore (<["alice" := alice]> (<["bob" := bob]> ∅))
    (<["u-alice" := alice]> (<["u-bob" := bob]> ∅)) [m1; m2; m3] "data".

Definition env0 : Env := mkEnv 5%Z 7%Z 9%Z.

(** A server state with the store [st] on the disk [d], and the clients
    [cs] (pointer and client), all of them live. *)
Definition state_of (st : store.Store) (d : os.Disk) (cs : list (ptr * Client))
  : State :=
  mkState (list_to_map cs) (mkHub (list_to_map ((λ p, (p.1, true)) <$> cs))
                              (make 256) false false)
    st d newWorkerPool ∅ (length cs) [].

(** A client that has logged in as alice, one that has not logged in, and
    one whose send channel is full. *)
Definition c_alice : Client := mkClient "conn-1" false (make sendBufSize) "u-alice" "Alice".
Definition c_anon : Client := mkClient "conn-2" false (make sendBufSize) "" "".
Definition c_slow : Client :=
  mkClient "conn-3" false (mkChan [protocol.System (fmt.Lit "x")] 1 false) "" "".

Definition st0 : State :=
  state_of store3 disk_ok [(1, c_alice); (2, c_anon); (3, c_slow)].

(** Two connections that have not logged in yet, and the login packet of
    alice. *)
Definition two_anon : State :=
  state_of store3 disk_ok
    [(1, mkClient "conn-1" false (make sendBufSize) "" "");
     (2, mkClient "conn-2" false (make sendBufSize) "" "")].

Definition login_alice : option json.Value :=
  Some (json.JObj [("username", json.JStr "alice"); ("password", json.JStr "pw")]).

(** The state [st0] once alice is in the online index. *)
Definition st_online : State := set_online (<["u-alice" := 1]>) st0.

Definition chat_hi : option json.Value :=
  Some (json.JObj [("content", json.JStr "hi")]).
Definition history_1 : option json.Value :=
  Some (json.JObj [("limit", json.JNum 1)]).
Definition search_alice_from_t2 : option json.Value :=
  Some (json.JObj [("username", json.JStr "alice"); ("from", json.JTime t2)]).

(** Both connections log in as alice. *)
Definition two_logins : M unit :=
  handleLogin (H := digest) 1 login_alice;;
  handleLogin (H := digest) 2 login_alice.

(** A registration of carol, a registration under a taken name, and a login
    of alice with a wrong password. *)
Definition register_carol : option json.Value :=
  Some (json.JObj [("username", json.JStr "Carol"); ("password", json.JStr "pw3")]).
Definition register_ALICE : option json.Value :=
  Some (json.JObj [("username", json.JStr "ALICE"); ("password", json.JStr "x")]).
Definition login_bad : option json.Value :=
  Some (json.JObj [("username", json.JStr "alice"); ("password", json.JStr "bad")]).

(** The state [st0] on a disk that refuses the writes. *)
Definition st_ro : State := set_store store3 disk_ro st0.


(** A server with no client and two jobs in the queue of the pool. *)
Definition st_jobs : State :=
  set_pool (mkPool (mkChan [m1; m2] 1024 false))
    (state_of empty_store disk_ok []).

End sample.
(* ===================================================================== *)
(** ** Facts on the library functions *)
(* ===================================================================== *)

Section strings_facts.

Import GoStrings.










End strings_facts.

(* ===================================================================== *)
(** ** The store *)
(* ===================================================================== *)

Section store_facts.

Context `{Digest}.
Import GoStrings.

(** A registration that succeeds files the account under the lower-case
    username. *)
Lemma RegisterUser_files cid r c username password s d s' d' u err :
  store.RegisterUser cid r c username password s d = (s', d', (Some u, err)) →
  store.users s' !! ToLower username = Some u ∧ store.Username u = username.
Proof.
  unfold store.RegisterUser. destruct (store.users s !! ToLower username); [done|].
  destruct (store.saveUsersLocked _ d) as [d1 e1]. intros [= <- <- <- <-]. simpl.
  by rewrite lookup_insert_eq.
Qed.

Lemma RegisterUser_keyed cid r c username password s d :
  obs.keyed s →
  obs.keyed (store.RegisterUser cid r c username password s d).1.1.
Proof.
  intros Hk. unfold store.RegisterUser.
  destruct (store.users s !! ToLower username); [done|].
  destruct (store.saveUsersLocked _ d) as [d1 e1]. simpl.
  intros k u. simpl. rewrite lookup_insert. case_decide as E.
  - intros [= <-]. by subst.
  - apply Hk.
Qed.

(** C5: a username already registered under some case variation cannot be
    registered again: the call answers the error "already taken" and neither
    the store (accounts, index by ID, messages) nor the disk changes. *)
Theorem C5_duplicate_username_rejected cid r c (s : store.Store) (d : os.Disk)
  (u username password : string) (a : store.User) :
  store.users s !! ToLower u = Some a →
  ToLower username = ToLower u →
  store.RegisterUser cid r c username password s d
  = (s, d, (None, Some (store.errTaken username)))
  ∧ store.users s !! ToLower u = Some a.
Proof.
  intros Hu Hcase. split; [|done].
  unfold store.RegisterUser. by rewrite Hcase, Hu.
Qed.

Lemma GetHistory_nonpositive (s : store.Store) (n : Z) :
  (n ≤ 0)%Z → store.GetHistory n s = store.messages s.
Proof.
  intros Hn. unfold store.GetHistory.
  by rewrite (proj2 (Z.leb_le n 0) Hn).
Qed.

(** [GetHistory] for a positive [n]: the last [n] messages, in log order. *)
Lemma GetHistory_positive (s : store.Store) (n : Z) :
  (0 < n)%Z →
  store.GetHistory n s
  = drop (length (store.messages s) - Z.to_nat n) (store.messages s).
Proof.
  intros Hn. unfold store.GetHistory.
  rewrite (proj2 (Z.leb_gt n 0) Hn). simpl.
  destruct (Z.leb_spec (Z.of_nat (length (store.messages s))) n) as [Hle|Hlt].
  - replace (length (store.messages s) - Z.to_nat n) with 0 by lia. done.
  - f_equal. lia.
Qed.

(** The loop of [Search] is a filter. *)
Lemma Search_loop_filter q u from to ms out :
  store.Search_loop q u from to ms out
  = out ++ List.filter (store.keeps q u from to) ms.
Proof.
  revert out. induction ms as [|m ms IH]; intros out; simpl.
  - by rewrite app_nil_r.
  - destruct (store.keeps q u from to m); rewrite IH; [|done].
    by rewrite <- app_assoc.
Qed.


End store_facts.

(* ===================================================================== *)
(** ** The server: sending to one client *)
(* ===================================================================== *)

Section server_facts.

Context `{Digest}.
Import GoStrings server.

(** Running a sequence: the binds of [M] are computed away. *)
Ltac run :=
  unfold isAuthenticated, sendError, sendResponse, sendSystem, sendPacket,
    store_client, deref, printf, modify, get, panic, block;
  unfold mbind, M_bind, mret, M_ret; simpl.

Lemma sendPacket_room c pkt s cl :
  heap s !! c = Some cl → closed (send cl) = false →
  length (buf (send cl)) < cap (send cl) →
  sendPacket c pkt s = Ret tt (obs.queued c pkt s).
Proof.
  intros Hc Ho Hr. unfold obs.queued. run. rewrite Hc. unfold try_send.
  rewrite Ho. by rewrite (proj2 (Nat.ltb_lt _ _) Hr).
Qed.

Lemma sendPacket_full c pkt s cl :
  heap s !! c = Some cl → closed (send cl) = false →
  cap (send cl) ≤ length (buf (send cl)) →
  sendPacket c pkt s = Ret tt s.
Proof.
  intros Hc Ho Hr. run. rewrite Hc. unfold try_send.
  rewrite Ho. by rewrite (proj2 (Nat.ltb_ge _ _) Hr).
Qed.


Lemma isAuthenticated_eq c s cl :
  heap s !! c = Some cl →
  isAuthenticated c s = Ret (negb (String.eqb (userID cl) "")) s.
Proof. intros Hc. run. by rewrite Hc. Qed.



Lemma bind_Ret {A B} (m : M A) (f : A → M B) s a s' :
  m s = Ret a s' → (m ≫= f) s = f a s'.
Proof. intros E. unfold mbind, M_bind. by rewrite E. Qed.



(** [handleHistory] for an authenticated connection with room in its
    channel. *)
Lemma handleHistory_eq (s : State) (c : ptr) (cl : Client)
  (raw : option json.Value) :
  heap s !! c = Some cl → userID cl ≠ "" → closed (send cl) = false →
  length (buf (send cl)) < cap (send cl) →
  handleHistory c raw s
  = Ret tt (obs.queued c
              (obs.messages_response "last %d message(s)"
                 (store.GetHistory (obs.limit_of raw) (store_ s))) s).
Proof.
  intros Hc Hid Ho Hr.
  assert (Ha : isAuthenticated c s = Ret true s).
  { rewrite (isAuthenticated_eq c s cl Hc).
    destruct (String.eqb_spec (userID cl) ""); done. }
  unfold handleHistory. rewrite (bind_Ret _ _ _ _ _ Ha). simpl.
  unfold mbind at 1, M_bind, get. unfold sendResponse.
  by apply (sendPacket_room c _ s cl).
Qed.

(** C7: a history request of an authenticated connection is answered with
    the last [k] messages of the log, in log order, where [k] is the limit
    asked for when it is positive and 20 otherwise (limit absent, zero,
    negative, or a payload that does not decode); no error is answered, and
    the whole log is answered when [k] is at least its length. *)
Theorem C7_history_most_recent (s : State) (c : ptr) (raw : option json.Value) :
  obs.authenticated s c → obs.send_open s c → obs.has_room s c →
  let requested :=
    protocol.Limit <$> json.into_struct protocol.set_History zero_History raw in
  let k := match requested with
           | Some n => if (0 <? n)%Z then n else 20%Z
           | None => 20%Z
           end in
  let msgs_log := store.messages (store_ s) in
  let msgs := drop (length msgs_log - Z.to_nat k) msgs_log in
  handleHistory c raw s
  = Ret tt (obs.queued c (obs.messages_response "last %d message(s)" msgs) s)
  ∧ length msgs = Nat.min (Z.to_nat k) (length msgs_log)
  ∧ (length msgs_log ≤ Z.to_nat k → msgs = msgs_log)
  ∧ json.into_struct protocol.set_History zero_History (Some (json.JObj []))
    = Some (protocol.mkHistory 0).
Proof.
  intros (cl & Hc & Hid) (cl' & Hc' & Ho) (cl'' & Hc'' & Hr).
  rewrite Hc in Hc', Hc''. injection Hc' as <-. injection Hc'' as <-.
  intros requested k msgs_log msgs.
  split; [|split; [|split]].
  - rewrite (handleHistory_eq s c cl raw Hc Hid Ho Hr).
    assert (Hg : store.GetHistory (obs.limit_of raw) (store_ s) = msgs).
    { subst msgs k requested msgs_log. unfold obs.limit_of.
      destruct (json.into_struct protocol.set_History zero_History raw) as [p|]; simpl.
      - destruct (Z.leb_spec (protocol.Limit p) 0) as [Hle|Hgt]; simpl.
        + rewrite (proj2 (Z.ltb_ge 0 (protocol.Limit p)) Hle).
          by rewrite GetHistory_positive by lia.
        + rewrite (proj2 (Z.ltb_lt 0 (protocol.Limit p)) Hgt).
          by rewrite GetHistory_positive by lia.
      - by rewrite GetHistory_positive by lia. }
    by rewrite Hg.
  - subst msgs. rewrite length_drop. lia.
  - intros Hle. subst msgs.
    replace (length msgs_log - Z.to_nat k) with 0 by lia. done.
  - reflexivity.
Qed.

(** C10: for [n <= 0], [GetHistory n] of the store is the whole message
    log; the bound of 20 comes from [handleHistory], which for a limit
    [n <= 0] in the packet asks the store for [GetHistory 20]. *)
Theorem C10_GetHistory_nonpositive_is_all (st : store.Store) (n : Z) :
  (n ≤ 0)%Z →
  store.GetHistory n st = store.messages st
  ∧ obs.limit_of (Some (json.JObj [("limit", json.JNum n)])) = 20%Z
  ∧ ∀ s c cl,
      store_ s = st → heap s !! c = Some cl → userID cl ≠ "" →
      closed (send cl) = false → length (buf (send cl)) < cap (send cl) →
      handleHistory c (Some (json.JObj [("limit", json.JNum n)])) s
      = Ret tt (obs.queued c
                  (obs.messages_response "last %d message(s)"
                     (store.GetHistory 20 st)) s).
Proof.
  intros Hn.
  assert (Hl : obs.limit_of (Some (json.JObj [("limit", json.JNum n)])) = 20%Z).
  { unfold obs.limit_of, json.into_struct, json.fill, protocol.set_History,
      json.into_int. simpl.
    destruct ((-9223372036854775808 <=? n)%Z && (n <=? 9223372036854775807)%Z);
      simpl; [|done].
    by rewrite (proj2 (Z.leb_le n 0) Hn). }
  split; [by apply GetHistory_nonpositive|]. split; [exact Hl|].
  intros s c cl <- Hc Hid Ho Hr.
  rewrite (handleHistory_eq s c cl _ Hc Hid Ho Hr). by rewrite Hl.
Qed.


(** C2: a chat packet with non-empty content, sent by an authenticated
    connection while the broadcast channel of the Hub has room, puts exactly
    one broadcast packet of the message on that channel, whatever the state
    of the job queue: with a full job queue the job is dropped and logged,
    otherwise it is queued; in both cases the broadcast queue gets the same
    packet, the handler returns, and no error response is sent (the clients
    are unchanged). *)
Theorem C2_chat_broadcast_unconditional (e : Env) (s : State) (c : ptr)
  (cl : Client) (raw : option json.Value) (p : protocol.ChatPayload) :
  heap s !! c = Some cl → userID cl ≠ "" →
  json.into_struct protocol.set_Chat zero_Chat raw = Some p →
  protocol.chat_Content p ≠ "" →
  closed (broadcast (hub s)) = false →
  length (buf (broadcast (hub s))) < cap (broadcast (hub s)) →
  closed (jobs (pool s)) = false →
  let msg := protocol.mkMsg (fmt.Itoa (time.UnixNano (clock e)))
               (userID cl) (username cl) (protocol.chat_Content p) (clock e) in
  let bcast := protocol.Broadcast
                 (protocol.mkBroadcast (userID cl) (username cl)
                    (protocol.chat_Content p) (clock e)) in
  ∃ s', handleChat e c raw s = Ret tt s' ∧
    buf (broadcast (hub s')) = buf (broadcast (hub s)) ++ [bcast] ∧
    clients (hub s') = clients (hub s) ∧
    heap s' = heap s ∧ store_ s' = store_ s ∧ online s' = online s ∧
    (length (buf (jobs (pool s))) < cap (jobs (pool s)) →
     buf (jobs (pool s')) = buf (jobs (pool s)) ++ [msg] ∧ log s' = log s) ∧
    (cap (jobs (pool s)) ≤ length (buf (jobs (pool s))) →
     pool s' = pool s ∧
     log s' = log s ++ [fmt.Sprintf
       "[pool] job queue full - message dropped from persistence" []]).
Proof.
  intros Hc Hid Hp Hne Hbo Hbr Hjo msg bcast.
  assert (Ha : isAuthenticated c s = Ret true s).
  { rewrite (isAuthenticated_eq c s cl Hc).
    destruct (String.eqb_spec (userID cl) ""); done. }
  unfold handleChat. rewrite (bind_Ret _ _ _ _ _ Ha). simpl. rewrite Hp.
  destruct (String.eqb_spec (protocol.chat_Content p) "") as [E|_]; [done|].
  unfold mbind at 1, M_bind, deref. rewrite Hc. simpl.
  unfold hub_broadcast_send, submit, printf, modify, get.
  unfold mbind, M_bind, mret, M_ret. simpl.
  rewrite Hbo. rewrite (proj2 (Nat.ltb_lt _ _) Hbr). simpl.
  unfold try_send. rewrite Hjo.
  destruct (Nat.ltb_spec (length (buf (jobs (pool s)))) (cap (jobs (pool s))))
    as [Hjr|Hjf]; simpl.
  - eexists. split; [reflexivity|]. simpl. repeat split; try done; lia.
  - eexists. split; [reflexivity|]. simpl. repeat split; try done; lia.
Qed.

(** With a full broadcast channel the handler of a chat packet waits at the
    send of the broadcast, before anything is submitted to the pool. *)
Lemma handleChat_waits_at_broadcast (e : Env) (s : State) (c : ptr)
  (cl : Client) (raw : option json.Value) (p : protocol.ChatPayload) :
  heap s !! c = Some cl → userID cl ≠ "" →
  json.into_struct protocol.set_Chat zero_Chat raw = Some p →
  protocol.chat_Content p ≠ "" →
  closed (broadcast (hub s)) = false →
  cap (broadcast (hub s)) ≤ length (buf (broadcast (hub s))) →
  handleChat e c raw s = Block s.
Proof.
  intros Hc Hid Hp Hne Hbo Hbf.
  assert (Ha : isAuthenticated c s = Ret true s).
  { rewrite (isAuthenticated_eq c s cl Hc).
    destruct (String.eqb_spec (userID cl) ""); done. }
  unfold handleChat. rewrite (bind_Ret _ _ _ _ _ Ha). simpl. rewrite Hp.
  destruct (String.eqb_spec (protocol.chat_Content p) "") as [E|_]; [done|].
  unfold mbind at 1, M_bind, deref. rewrite Hc. simpl.
  unfold hub_broadcast_send, get. unfold mbind, M_bind. simpl.
  rewrite Hbo. by rewrite (proj2 (Nat.ltb_ge _ _) Hbf).
Qed.

End server_facts.

(* ===================================================================== *)
(** ** The Hub *)
(* ===================================================================== *)

Section hub_facts.

Import server.

(** The turn of the broadcast loop for a client with room in its channel. *)
Lemma deliver_room data c s cl :
  heap s !! c = Some cl → closed (send cl) = false →
  length (buf (send cl)) < cap (send cl) →
  ∃ s', deliver data c s = Ret tt s' ∧
    heap s' = <[c := set_send (mkChan (buf (send cl) ++ [data])
                                 (cap (send cl)) false) cl]> (heap s) ∧
    clients (hub s') = clients (hub s).
Proof.
  intros Hc Ho Hr. unfold deliver, deref, store_client, modify.
  unfold mbind, M_bind. rewrite Hc. unfold try_send. rewrite Ho.
  rewrite (proj2 (Nat.ltb_lt _ _) Hr). eexists. split; [reflexivity|]. done.
Qed.

(** The turn of the broadcast loop for a client whose channel is full. *)
Lemma deliver_full data c s cl :
  heap s !! c = Some cl → closed (send cl) = false →
  cap (send cl) ≤ length (buf (send cl)) →
  ∃ s', deliver data c s = Ret tt s' ∧
    heap s' = <[c := set_send (mkChan (buf (send cl)) (cap (send cl)) true) cl]>
                (heap s) ∧
    clients (hub s') = delete c (clients (hub s)).
Proof.
  intros Hc Ho Hf. unfold deliver, deref, store_client, printf, modify, panic.
  unfold mbind, M_bind, mret, M_ret. rewrite Hc. unfold try_send. rewrite Ho.
  rewrite (proj2 (Nat.ltb_ge _ _) Hf). simpl. unfold close. rewrite Ho. simpl.
  eexists. split; [reflexivity|]. done.
Qed.

(** The broadcast loop over distinct clients whose channels are open. *)
Lemma broadcast_loop data (l : list ptr) : ∀ s,
  NoDup l →
  (∀ c, c ∈ l → obs.send_open s c) →
  ∃ s', for_each l (deliver data) s = Ret tt s' ∧
    (∀ c cl, c ∈ l → heap s !! c = Some cl →
       (length (buf (send cl)) < cap (send cl) →
        heap s' !! c = Some (set_send (mkChan (buf (send cl) ++ [data])
                                         (cap (send cl)) false) cl) ∧
        clients (hub s') !! c = clients (hub s) !! c) ∧
       (cap (send cl) ≤ length (buf (send cl)) →
        heap s' !! c = Some (set_send (mkChan (buf (send cl))
                                         (cap (send cl)) true) cl) ∧
        clients (hub s') !! c = None)) ∧
    (∀ c, c ∉ l → heap s' !! c = heap s !! c ∧
                  clients (hub s') !! c = clients (hub s) !! c).
Proof.
  induction l as [|c0 l IH]; intros s Hnd Hopen.
  - exists s. split; [done|]. split; [|done].
    intros c cl Hin. by apply elem_of_nil in Hin.
  - apply NoDup_cons in Hnd as [Hc0 Hnd].
    destruct (Hopen c0) as (cl0 & Hh0 & Ho0); [by left|].
    assert (Hstep : ∃ s1, deliver data c0 s = Ret tt s1 ∧
              (∀ c, c ≠ c0 → heap s1 !! c = heap s !! c ∧
                             clients (hub s1) !! c = clients (hub s) !! c) ∧
              (length (buf (send cl0)) < cap (send cl0) →
               heap s1 !! c0 = Some (set_send (mkChan (buf (send cl0) ++ [data])
                                                (cap (send cl0)) false) cl0) ∧
               clients (hub s1) !! c0 = clients (hub s) !! c0) ∧
              (cap (send cl0) ≤ length (buf (send cl0)) →
               heap s1 !! c0 = Some (set_send (mkChan (buf (send cl0))
                                                (cap (send cl0)) true) cl0) ∧
               clients (hub s1) !! c0 = None)).
    { destruct (Nat.lt_ge_cases (length (buf (send cl0))) (cap (send cl0)))
        as [Hr|Hf].
      - destruct (deliver_room data c0 s cl0 Hh0 Ho0 Hr) as (s1 & E & Hh & Hcl).
        exists s1. split; [done|]. rewrite Hh, Hcl. split; [|split].
        + intros c Hne. by rewrite lookup_insert_ne.
        + intros _. by rewrite lookup_insert_eq.
        + lia.
      - destruct (deliver_full data c0 s cl0 Hh0 Ho0 Hf) as (s1 & E & Hh & Hcl).
        exists s1. split; [done|]. rewrite Hh, Hcl. split; [|split].
        + intros c Hne. rewrite lookup_insert_ne, lookup_delete_ne; done.
        + lia.
        + intros _. by rewrite lookup_insert_eq, lookup_delete_eq. }
    destruct Hstep as (s1 & E1 & Hother & Hroom & Hfull).
    destruct (IH s1 Hnd) as (s' & E' & Hin & Hout).
    { intros c Hc. destruct (Hopen c) as (cl & Hh & Ho); [by right|].
      exists cl. split; [|done].
      destruct (Hother c) as [-> _]; [|done]. by intros ->. }
    exists s'. split.
    { simpl. by rewrite (bind_Ret _ _ _ _ _ E1). }
    split.
    + intros c cl Hc Hh. apply elem_of_cons in Hc as [-> | Hc].
      * rewrite Hh0 in Hh. injection Hh as <-.
        destruct (Hout c0 Hc0) as [-> ->]. split; [apply Hroom | apply Hfull].
      * assert (Hne : c ≠ c0) by (by intros ->).
        destruct (Hother c Hne) as [Hh1 Hc1].
        rewrite <- Hc1. apply Hin; [done|]. by rewrite Hh1.
    + intros c Hc. apply not_elem_of_cons in Hc as [Hne Hc].
      destruct (Hout c Hc) as [-> ->]. by apply Hother.
Qed.

(** An order of the range over a map visits each key once. *)
Lemma ranges_keys {V} (order : list ptr) (m : gmap ptr V) :
  ranges order m → NoDup order ∧ ∀ c, c ∈ order ↔ is_Some (m !! c).
Proof.
  unfold ranges. intros Hrange. split.
  - rewrite Hrange. apply NoDup_fst_map_to_list.
  - intros c. rewrite Hrange, list_elem_of_fmap. split.
    + intros ([k v] & -> & Hin). apply elem_of_map_to_list in Hin. by exists v.
    + intros [v Hv]. exists (c, v). split; [done|]. by apply elem_of_map_to_list.
Qed.

(** The broadcast case keeps the send channels of the live clients open. *)
Lemma Run_broadcast_hub_ok (s s' : State) (data : protocol.Packet)
  (order : list ptr) :
  obs.hub_ok s → ranges order (clients (hub s)) →
  Run_broadcast order data s = Ret tt s' → obs.hub_ok s'.
Proof.
  intros Hok Hrange E. destruct (ranges_keys _ _ Hrange) as [Hnd Hmem].
  destruct (broadcast_loop data order s Hnd) as (s1 & E1 & Hin & Hout).
  { intros c Hc. apply Hok. by apply Hmem. }
  unfold Run_broadcast in E. rewrite E1 in E. injection E as <-.
  intros c [v Hv]. destruct (decide (c ∈ order)) as [Hc|Hc].
  - destruct (Hok c (proj1 (Hmem c) Hc)) as (cl & Hh & Ho).
    destruct (Hin c cl Hc Hh) as [Hroom Hfull].
    destruct (Nat.lt_ge_cases (length (buf (send cl))) (cap (send cl))) as [Hr|Hf].
    + destruct (Hroom Hr) as [Hh' _]. eexists. split; [exact Hh'|done].
    + destruct (Hfull Hf) as [_ Hc']. rewrite Hc' in Hv. done.
  - destruct (Hout c Hc) as [_ Hc']. exfalso. apply Hc, Hmem.
    rewrite <- Hc'. by exists v.
Qed.

(** C1: the broadcast case of [Run], for the packet [data] and any order of
    the range over the live set, returns; the packet is appended, once, to
    the queue of every live client whose send channel has room, and that
    client stays live; every live client whose send channel is full is
    removed from the live set and its channel is closed, its queue as it
    was; clients that are not live are untouched. *)
Theorem C1_broadcast_fanout (s : State) (data : protocol.Packet)
  (order : list ptr) :
  obs.hub_ok s → ranges order (clients (hub s)) →
  ∃ s', Run_broadcast order data s = Ret tt s' ∧
    (∀ c, obs.live s c → obs.has_room s c →
       obs.live s' c ∧ obs.send_open s' c ∧
       obs.outbox s' c = obs.outbox s c ++ [data]) ∧
    (∀ c, obs.live s c → obs.is_full s c →
       ¬ obs.live s' c ∧ obs.send_closed s' c ∧
       obs.outbox s' c = obs.outbox s c) ∧
    (∀ c, ¬ obs.live s c →
       ¬ obs.live s' c ∧ heap s' !! c = heap s !! c).
Proof.
  intros Hok Hrange. destruct (ranges_keys _ _ Hrange) as [Hnd Hmem].
  destruct (broadcast_loop data order s Hnd) as (s' & E & Hin & Hout).
  { intros c Hc. apply Hok. by apply Hmem. }
  exists s'. split; [exact E|]. split; [|split].
  - intros c Hlive (cl & Hh & Hr).
    destruct (Hin c cl (proj2 (Hmem c) Hlive) Hh) as [Hroom _].
    destruct (Hroom Hr) as [Hh' Hc']. split; [|split].
    + unfold obs.live. by rewrite Hc'.
    + eexists. split; [exact Hh'|done].
    + unfold obs.outbox. by rewrite Hh', Hh.
  - intros c Hlive (cl & Hh & Hf).
    destruct (Hin c cl (proj2 (Hmem c) Hlive) Hh) as [_ Hfull].
    destruct (Hfull Hf) as [Hh' Hc']. split; [|split].
    + unfold obs.live. rewrite Hc'. by intros [? ?].
    + eexists. split; [exact Hh'|done].
    + unfold obs.outbox. by rewrite Hh', Hh.
  - intros c Hnl.
    destruct (Hout c) as [Hh' Hc'].
    { intros Hc. by apply Hnl, Hmem. }
    split; [|done]. unfold obs.live. by rewrite Hc'.
Qed.

End hub_facts.

(* ===================================================================== *)
(** ** The store and its files *)
(* ===================================================================== *)

Section disk_facts.

Context `{Digest}.
Import GoStrings.









(** The store built by [New] is keyed by lower-case username. *)
Lemma foldl_add_loaded_keyed us : ∀ s,
  obs.keyed s → obs.keyed (foldl store.add_loaded s us).
Proof.
  induction us as [|u us IH]; intros s Hk; simpl; [done|].
  apply IH. intros k v. simpl. rewrite lookup_insert. case_decide as E.
  - intros [= <-]. by subst.
  - apply Hk.
Qed.

Lemma New_keyed (dir : string) (d : os.Disk) (s : store.Store) :
  store.New dir d = (Some s, None) → obs.keyed s.
Proof.
  unfold store.New, store.load. simpl.
  assert (Hk : ∀ us, obs.keyed (foldl store.add_loaded (store.mkStore ∅ ∅ [] dir) us)).
  { intros us. apply foldl_add_loaded_keyed. intros k u. simpl.
    by rewrite lookup_empty. }
  destruct (os.ReadFile d (Join dir "users.json")) as [data|]; simpl.
  - destruct (store.unmarshal_slice store.unmarshal_User data) as [us|]; [|done].
    destruct (os.ReadFile d _) as [data'|]; simpl.
    + destruct (store.unmarshal_slice store.unmarshal_Message data') as [ms|];
        [|done].
      intros [= <-]. intros k u. simpl. apply Hk.
    + intros [= <-]. apply Hk.
  - destruct (os.ReadFile d _) as [data'|]; simpl.
    + destruct (store.unmarshal_slice store.unmarshal_Message data') as [ms|];
        [|done].
      intros [= <-]. intros k u. simpl. by rewrite lookup_empty.
    + intros [= <-]. intros k u. simpl. by rewrite lookup_empty.
Qed.

(** C4 (amended): on a disk that refuses writes, [RegisterUser] of a free
    username and [SaveMessage] return the error of the write to their
    caller, while the new account, or the new message, is in the store
    they leave; the worker of the pool logs the error that [SaveMessage]
    returns and ends its turn. *)
Theorem C4_write_failure_returned (s : store.Store) (d : os.Disk) (e : string) :
  os.wfault d = Some e →
  (∀ cid r c username password,
     store.users s !! ToLower username = None →
     ∃ s' u,
       store.RegisterUser cid r c username password s d
       = (s', d, (Some u, Some (fmt.Lit e))) ∧
       store.users s' !! ToLower username = Some u ∧
       store.Username u = username ∧
       store.messages s' = store.messages s) ∧
  (∀ msg,
     ∃ s', store.SaveMessage msg s d = (s', d, Some (fmt.Lit e)) ∧
           store.messages s' = store.messages s ++ [msg] ∧
           store.users s' = store.users s) ∧
  (∀ st msg rest,
     server.store_ st = s → server.disk st = d →
     server.buf (server.jobs (server.pool st)) = msg :: rest →
     ∃ st', server.worker_turn st = server.Ret tt st' ∧
            store.messages (server.store_ st') = store.messages s ++ [msg] ∧
            server.buf (server.jobs (server.pool st')) = rest ∧
            server.log st'
            = server.log st ++ [fmt.Sprintf "[store] save error: %v"
                                  [fmt.ArgT (fmt.Lit e)]]).
Proof.
  intros Hd. split; [|split].
  - intros cid r c username password Hfree.
    unfold store.RegisterUser. rewrite Hfree.
    unfold store.saveUsersLocked, store.saveUsers_in, store.writeJSON, os.WriteFile.
    simpl. rewrite Hd. simpl. do 2 eexists. split; [reflexivity|]. simpl.
    by rewrite lookup_insert_eq.
  - intros msg. unfold store.SaveMessage, store.saveMessagesLocked,
      store.writeJSON, os.WriteFile. simpl. rewrite Hd. simpl.
    eexists. split; [reflexivity|]. done.
  - intros st msg rest Hs Hdisk Hjobs.
    unfold server.worker_turn, server.get, server.modify, server.printf.
    unfold mbind, server.M_bind, mret, server.M_ret. rewrite Hjobs.
    unfold store.SaveMessage, store.saveMessagesLocked,
      store.writeJSON, os.WriteFile. simpl. rewrite Hdisk, Hd. simpl.
    eexists. split; [reflexivity|]. simpl. by rewrite Hs.
Qed.

End disk_facts.

(* ===================================================================== *)
(** ** The online index *)
(* ===================================================================== *)

Section online_facts.

Import server.

Lemma onlineUsers_loop_eq s (cs : list ptr) : ∀ out,
  (∀ c, c ∈ cs → is_Some (heap s !! c)) →
  onlineUsers_loop cs out s = Ret (out ++ (obs.identity s <$> cs)) s.
Proof.
  induction cs as [|c cs IH]; intros out Hv; simpl.
  - by rewrite app_nil_r.
  - destruct (Hv c) as [cl Hc]; [by left|].
    unfold mbind, M_bind, deref. rewrite Hc.
    rewrite IH by (intros c' Hc'; apply Hv; by right).
    rewrite <- app_assoc. simpl. unfold obs.identity at 2. by rewrite Hc.
Qed.

(** C3 (amended): [onlineUsers] reports one entry per key of the online
    index, the identity of the connection filed under that key; the index
    holds one connection per account id, the last one that [addOnline]
    filed under it; [removeOnline] leaves what is filed under other account
    ids in place. *)
Theorem C3_online_index_per_account (s : State) :
  obs.index_valid s →
  (∃ us, onlineUsers s = Ret us s ∧
         length us = size (online s) ∧
         ∀ i, i ∈ us ↔ ∃ k c, online s !! k = Some c ∧ i = obs.identity s c) ∧
  (∀ c cl, heap s !! c = Some cl →
     ∃ s', addOnline c s = Ret tt s' ∧ heap s' = heap s ∧
           online s' = <[userID cl := c]> (online s)) ∧
  (∀ c cl, heap s !! c = Some cl →
     ∃ s', removeOnline c s = Ret tt s' ∧ heap s' = heap s ∧
           ∀ k, k ≠ userID cl → online s' !! k = online s !! k).
Proof.
  intros Hv. split; [|split].
  - exists (obs.identity s <$> (map_to_list (online s)).*2). split; [|split].
    + unfold onlineUsers, get. unfold mbind, M_bind.
      rewrite onlineUsers_loop_eq; [done|].
      intros c Hc. apply list_elem_of_fmap in Hc as ([k c'] & -> & Hin).
      apply elem_of_map_to_list in Hin. by apply (Hv k).
    + by rewrite !length_fmap, length_map_to_list.
    + intros i. rewrite list_elem_of_fmap. split.
      * intros (c & -> & Hc). apply list_elem_of_fmap in Hc as ([k c'] & -> & Hin).
        apply elem_of_map_to_list in Hin. by exists k, c'.
      * intros (k & c & Hk & ->). exists c. split; [done|].
        apply list_elem_of_fmap. exists (k, c). split; [done|].
        by apply elem_of_map_to_list.
  - intros c cl Hc. unfold addOnline, deref, modify. unfold mbind, M_bind.
    rewrite Hc. eexists. split; [reflexivity|]. done.
  - intros c cl Hc. unfold removeOnline.
    rewrite (bind_Ret _ _ _ _ _ (isAuthenticated_eq c s cl Hc)).
    destruct (negb (negb (String.eqb (userID cl) ""))).
    + exists s. done.
    + unfold deref, modify. unfold mbind, M_bind. rewrite Hc.
      eexists. split; [reflexivity|]. split; [done|].
      intros k Hne. simpl. by rewrite lookup_delete_ne.
Qed.

End online_facts.

(* ===================================================================== *)
(** ** The properties on the sample data *)
(* ===================================================================== *)

Section examples.

Import GoStrings server.

(** The examples of the specification, by computation. *)
Example search_hello_alice_example :
  store.Search "hello" "alice" None None sample.store3 = [sample.m1; sample.m3].
Proof. reflexivity. Qed.

Example search_alice_from_t2_example :
  store.Search "" "alice" (Some sample.t2) None sample.store3 = [sample.m3].
Proof. reflexivity. Qed.

Example history_1_example :
  store.GetHistory 1%Z sample.store3 = [sample.m3].
Proof. reflexivity. Qed.

Lemma C5_duplicate_username_rejected_witness :
  store.RegisterUser (H := sample.digest) 5%Z 7%Z 9%Z "ALICE" "x" sample.store3 sample.disk_ok
  = (sample.store3, sample.disk_ok, (None, Some (store.errTaken "ALICE")))
  ∧ store.users sample.store3 !! ToLower "Alice" = Some sample.alice.
Proof.
  apply (C5_duplicate_username_rejected (H := sample.digest) 5%Z 7%Z 9%Z
           sample.store3 sample.disk_ok "Alice" "ALICE" "x" sample.alice).
  - vm_compute. reflexivity.
  - reflexivity.
Defined.

Lemma C10_GetHistory_nonpositive_is_all_witness :
  store.GetHistory (-3)%Z sample.store3 = [sample.m1; sample.m2; sample.m3]
  ∧ obs.limit_of (Some (json.JObj [("limit", json.JNum (-3)%Z)])) = 20%Z.
Proof.
  destruct (C10_GetHistory_nonpositive_is_all sample.store3 (-3)%Z) as (E & L & _).
  - lia.
  - split; [exact E | exact L].
Defined.


Lemma C7_history_most_recent_witness :
  handleHistory 1 sample.history_1 sample.st0
  = Ret tt (obs.queued 1 (obs.messages_response "last %d message(s)" [sample.m3])
              sample.st0).
Proof.
  destruct (C7_history_most_recent sample.st0 1 sample.history_1) as [E _].
  - exists sample.c_alice. split; [reflexivity | discriminate].
  - exists sample.c_alice. split; reflexivity.
  - exists sample.c_alice. split; [reflexivity | vm_compute; lia].
  - exact E.
Defined.


Lemma C2_chat_broadcast_unconditional_witness :
  ∃ s', handleChat sample.env0 1 sample.chat_hi sample.st0 = Ret tt s' ∧
        buf (broadcast (hub s'))
        = [protocol.Broadcast (protocol.mkBroadcast "u-alice" "Alice" "hi" 9%Z)] ∧
        heap s' = heap sample.st0.
Proof.
  destruct (C2_chat_broadcast_unconditional sample.env0 sample.st0 1
              sample.c_alice sample.chat_hi (protocol.mkChat "hi"))
    as (s' & E & Hb & _ & Hh & _).
  - reflexivity.
  - discriminate.
  - reflexivity.
  - discriminate.
  - reflexivity.
  - vm_compute. lia.
  - reflexivity.
  - exists s'. split; [exact E|]. split; [exact Hb | exact Hh].
Defined.

Lemma st0_hub_ok : obs.hub_ok sample.st0.
Proof.
  intros c [v Hv].
  destruct (decide (c = 1)) as [->|N1];
    [exists sample.c_alice; split; reflexivity|].
  destruct (decide (c = 2)) as [->|N2];
    [exists sample.c_anon; split; reflexivity|].
  destruct (decide (c = 3)) as [->|N3];
    [exists sample.c_slow; split; reflexivity|].
  exfalso. revert Hv. unfold sample.st0, sample.state_of. simpl.
  rewrite !lookup_insert_ne by done. by rewrite lookup_empty.
Qed.

Lemma C1_broadcast_fanout_witness :
  ∃ s', Run_broadcast [1; 2; 3] (protocol.System (fmt.Lit "hello")) sample.st0
        = Ret tt s' ∧
        obs.outbox s' 1 = [protocol.System (fmt.Lit "hello")] ∧
        obs.live s' 2 ∧
        ¬ obs.live s' 3 ∧ obs.send_closed s' 3.
Proof.
  destruct (C1_broadcast_fanout sample.st0 (protocol.System (fmt.Lit "hello"))
              [1; 2; 3]) as (s' & E & Hroom & Hfull & _).
  - exact st0_hub_ok.
  - unfold ranges. vm_compute. apply (Permutation_cons_append [2; 3] 1).
  - exists s'. split; [exact E|].
    destruct (Hroom 1) as (_ & _ & H1).
    { eexists. vm_compute. reflexivity. }
    { exists sample.c_alice. split; [reflexivity | vm_compute; lia]. }
    destruct (Hroom 2) as (H2 & _).
    { eexists. vm_compute. reflexivity. }
    { exists sample.c_anon. split; [reflexivity | vm_compute; lia]. }
    destruct (Hfull 3) as (H3 & H3' & _).
    { eexists. vm_compute. reflexivity. }
    { exists sample.c_slow. split; [reflexivity | vm_compute; lia]. }
    split; [exact H1|]. split; [exact H2|]. split; [exact H3 | exact H3'].
Defined.



Lemma C4_write_failure_returned_witness :
  ∃ s', store.SaveMessage sample.m1 sample.empty_store sample.disk_ro
        = (s', sample.disk_ro, Some (fmt.Lit "read-only file system")) ∧
        store.messages s' = [sample.m1].
Proof.
  destruct (C4_write_failure_returned (H := sample.digest) sample.empty_store
              sample.disk_ro "read-only file system") as (_ & Hsave & _).
  - reflexivity.
  - destruct (Hsave sample.m1) as (s' & E & Hm & _).
    exists s'. split; [exact E | exact Hm].
Defined.

(** C4 as stated fails: on a disk that refuses writes, [RegisterUser] and
    [SaveMessage] return the error of the write to their caller. *)
Lemma C4_counterexample :
  (store.RegisterUser (H := sample.digest) 5%Z 7%Z 9%Z "carol" "pw"
     sample.empty_store sample.disk_ro).2.2
  = Some (fmt.Lit "read-only file system")
  ∧ (store.SaveMessage sample.m1 sample.empty_store sample.disk_ro).2
    = Some (fmt.Lit "read-only file system").
Proof. split; reflexivity. Qed.

Lemma st_online_valid : obs.index_valid sample.st_online.
Proof.
  intros k c. unfold sample.st_online. simpl.
  rewrite lookup_insert. case_decide as E; [|by rewrite lookup_empty].
  intros [= <-]. exists sample.c_alice. reflexivity.
Qed.

Lemma C3_online_index_per_account_witness :
  ∃ us, onlineUsers sample.st_online = Ret us sample.st_online ∧
        length us = 1 ∧
        protocol.mkInfo "u-alice" "Alice" ∈ us.
Proof.
  destruct (C3_online_index_per_account sample.st_online st_online_valid)
    as ((us & E & Hlen & Hmem) & _).
  exists us. split; [exact E|]. split; [exact Hlen|].
  apply Hmem. exists "u-alice", 1. split; reflexivity.
Defined.

(** C3 as stated fails: two connections log in as alice, and [onlineUsers]
    has one entry for the two of them; then the first one drops: the second
    is still authenticated and live, and [onlineUsers] has no entry at all. *)
Lemma C3_counterexample :
  ∃ s1 s2,
    sample.two_logins sample.two_anon = Ret tt s1 ∧
    obs.authenticated s1 1 ∧ obs.authenticated s1 2 ∧
    onlineUsers s1 = Ret [protocol.mkInfo "u-alice" "Alice"] s1 ∧
    readPump_exit 1 s1 = Ret tt s2 ∧
    obs.authenticated s2 2 ∧ obs.live s2 2 ∧
    onlineUsers s2 = Ret [] s2.
Proof.
  do 2 eexists. split; [vm_compute; reflexivity|].
  split; [eexists; split; [vm_compute; reflexivity | discriminate]|].
  split; [eexists; split; [vm_compute; reflexivity | discriminate]|].
  split; [vm_compute; reflexivity|].
  split; [vm_compute; reflexivity|].
  split; [eexists; split; [vm_compute; reflexivity | discriminate]|].
  split; [eexists; vm_compute; reflexivity|].
  vm_compute. reflexivity.
Qed.

End examples.

(* ===================================================================== *)
(** ** More on the store *)
(* ===================================================================== *)

Section store_more.

Context `{Digest}.
Import GoStrings.

Lemma filter_sublist {A} (keep : A → bool) (l : list A) :
  sublist (List.filter keep l) l.
Proof.
  induction l as [|x l IH]; simpl; [constructor|].
  destruct (keep x); by constructor.
Qed.

(** What a successful [RegisterUser] leaves: the account and the store. *)
Lemma RegisterUser_success cid r c username password s d s' d' u err :
  store.RegisterUser cid r c username password s d = (s', d', (Some u, err)) →
  u = store.mkUser (store.generateID cid r) username
        (store.hashPassword password) c
  ∧ s' = store.mkStore (<[ToLower username := u]> (store.users s))
           (<[store.ID u := u]> (store.byID s)) (store.messages s)
           (store.dataDir s).
Proof.
  unfold store.RegisterUser. destruct (store.users s !! ToLower username); [done|].
  destruct (store.saveUsersLocked _ d) as [d1 e1]. by intros [= <- <- <- <-].
Qed.

(** X1: an account that [RegisterUser] has created authenticates with the
    password it was registered with, under any case variation of its
    username, and [Authenticate] then returns that account; this holds also
    when the write of the users file failed. *)
Theorem X1_register_then_authenticate cid r c (username password login : string)
  (s s' : store.Store) (d d' : os.Disk) (u : store.User) (err : option fmt.Text) :
  store.RegisterUser cid r c username password s d = (s', d', (Some u, err)) →
  ToLower login = ToLower username →
  store.Authenticate login password s' = (Some u, None).
Proof.
  intros Hreg Hcase.
  destruct (RegisterUser_files _ _ _ _ _ _ _ _ _ _ _ Hreg) as [Hu _].
  destruct (RegisterUser_success _ _ _ _ _ _ _ _ _ _ _ Hreg) as [-> _].
  unfold store.Authenticate. rewrite Hcase, Hu. simpl.
  by rewrite String.eqb_refl.
Qed.

(** X2: [Authenticate] returns an account exactly when that account is
    filed under the lower-cased username and its digest is the digest of
    the password; an unknown username gives the error "not found" and a
    digest that differs gives "incorrect password", with no account. *)
Theorem X2_authenticate_outcomes (username password : string) (s : store.Store) :
  (∀ a, store.Authenticate username password s = (Some a, None)
        ↔ store.users s !! ToLower username = Some a
          ∧ store.PasswordHash a = store.hashPassword password)
  ∧ (store.users s !! ToLower username = None →
     store.Authenticate username password s
     = (None, Some (store.errNotFound username)))
  ∧ (∀ a, store.users s !! ToLower username = Some a →
          store.PasswordHash a ≠ store.hashPassword password →
          store.Authenticate username password s
          = (None, Some store.errPassword)).
Proof.
  unfold store.Authenticate. split; [|split].
  - intros a. destruct (store.users s !! ToLower username) as [b|]; [|split; [done|]].
    + destruct (String.eqb_spec (store.PasswordHash b) (store.hashPassword password))
        as [E|N]; split.
      * by intros [= ->].
      * by intros [[= ->] _].
      * done.
      * intros [[= ->] E]. done.
    + by intros [? _].
  - by intros ->.
  - intros a -> N.
    by destruct (String.eqb_spec (store.PasswordHash a) (store.hashPassword password)).
Qed.


(** X4: the users map is keyed by lower-case username in every store that
    [New] returns, and [RegisterUser] and [SaveMessage] keep it so. *)
Theorem X4_users_keyed_by_lowercase_name :
  (∀ dir d s, store.New dir d = (Some s, None) → obs.keyed s)
  ∧ (∀ cid r c username password s d,
       obs.keyed s →
       obs.keyed (store.RegisterUser cid r c username password s d).1.1)
  ∧ (∀ msg s d, obs.keyed s → obs.keyed (store.SaveMessage msg s d).1.1).
Proof.
  split; [|split].
  - apply New_keyed.
  - intros. by apply RegisterUser_keyed.
  - intros msg s d Hk. unfold store.SaveMessage.
    destruct (store.saveMessagesLocked _ d) as [d1 e1]. exact Hk.
Qed.


(** X6: for every [n], [GetHistory n] is a suffix of the message log: the
    whole log when [n <= 0], and otherwise its last [n] messages, all of
    them when the log has no more than [n]. *)
Theorem X6_history_is_suffix (n : Z) (s : store.Store) :
  (∃ older, store.messages s = older ++ store.GetHistory n s)
  ∧ length (store.GetHistory n s)
    = (if (n <=? 0)%Z then length (store.messages s)
       else Nat.min (Z.to_nat n) (length (store.messages s))).
Proof.
  destruct (Z.leb_spec n 0) as [Hle|Hgt].
  - rewrite GetHistory_nonpositive by done. split; [by exists []|done].
  - rewrite GetHistory_positive by done. split.
    + exists (take (length (store.messages s) - Z.to_nat n) (store.messages s)).
      by rewrite take_drop.
    + rewrite length_drop. lia.
Qed.

(** X7: the result of [Search] is a sublist of the message log (messages of
    the log, in log order), made of the messages the loop keeps; with an empty query, an empty username and
    no bounds, [Search] returns the whole log. *)
Theorem X7_search_sublist_of_log (query username : string)
  (from to : option time.Time) (s : store.Store) :
  sublist (store.Search query username from to s) (store.messages s)
  ∧ (∀ m, m ∈ store.Search query username from to s ↔
          m ∈ store.messages s
          ∧ store.keeps (ToLower query) (ToLower username) from to m = true)
  ∧ store.Search "" "" None None s = store.messages s.
Proof.
  unfold store.Search. rewrite !Search_loop_filter. simpl. split; [|split].
  - apply filter_sublist.
  - intros m. rewrite !list_elem_of_In, filter_In. done.
  - induction (store.messages s) as [|m l IH]; simpl; [done|]. by rewrite IH.
Qed.

(** X8: [New] on a data directory that has neither file returns an empty
    store and no error. *)
Theorem X8_new_without_files (dir : string) (d : os.Disk) :
  os.ReadFile d (Join dir "users.json") = None →
  os.ReadFile d (Join dir "messages.json") = None →
  store.New dir d = (Some (store.mkStore ∅ ∅ [] dir), None).
Proof.
  intros Hu Hm. unfold store.New, store.load. cbn [store.dataDir].
  rewrite Hu. cbn [store.dataDir]. by rewrite Hm.
Qed.



End store_more.

(* ===================================================================== *)
(** ** More on the Hub *)
(* ===================================================================== *)

Section hub_more.

Context `{Digest}.
Import server.

Lemma Run_register_eq c s cl :
  heap s !! c = Some cl →
  ∃ s', Run_register c s = Ret tt s' ∧
    heap s' = heap s ∧
    clients (hub s') = <[c := true]> (clients (hub s)) ∧
    broadcast (hub s') = broadcast (hub s) ∧
    returned (hub s') = returned (hub s) ∧
    online s' = online s ∧ store_ s' = store_ s.
Proof.
  intros Hc. unfold Run_register, deref, printf, modify, get.
  unfold mbind, M_bind, mret, M_ret. simpl. rewrite Hc.
  eexists. split; [reflexivity|]. done.
Qed.

Lemma Run_unregister_live c s cl v :
  clients (hub s) !! c = Some v → heap s !! c = Some cl →
  closed (send cl) = false →
  ∃ s', Run_unregister c s = Ret tt s' ∧
    heap s' = <[c := set_send (mkChan (buf (send cl)) (cap (send cl)) true) cl]>
                (heap s) ∧
    clients (hub s') = delete c (clients (hub s)) ∧
    broadcast (hub s') = broadcast (hub s) ∧
    returned (hub s') = returned (hub s) ∧
    online s' = online s ∧ store_ s' = store_ s.
Proof.
  intros Hl Hc Ho. unfold Run_unregister, deref, store_client, printf, modify, get.
  unfold mbind, M_bind, mret, M_ret. rewrite Hl. simpl. rewrite Hc.
  unfold close. rewrite Ho. simpl. eexists. split; [reflexivity|]. done.
Qed.

Lemma Run_unregister_absent c s :
  clients (hub s) !! c = None → Run_unregister c s = Ret tt s.
Proof.
  intros Hl. unfold Run_unregister, get. unfold mbind, M_bind. by rewrite Hl.
Qed.

(** The loop of the done case over distinct clients whose channels are
    open. *)
Lemma done_loop (l : list ptr) : ∀ s,
  NoDup l →
  (∀ c, c ∈ l → obs.send_open s c) →
  ∃ s', for_each l (λ c,
            cl ← deref c;
            match close (send cl) with
            | None => panic
            | Some ch => store_client c (set_send ch cl)
            end) s = Ret tt s' ∧
    hub s' = hub s ∧ online s' = online s ∧ store_ s' = store_ s ∧
    (∀ c cl, c ∈ l → heap s !! c = Some cl →
       heap s' !! c = Some (set_send (mkChan (buf (send cl)) (cap (send cl)) true) cl)) ∧
    (∀ c, c ∉ l → heap s' !! c = heap s !! c).
Proof.
  induction l as [|c0 l IH]; intros s Hnd Hopen.
  - exists s. split; [done|]. repeat split; try done.
    intros c cl Hin. by apply elem_of_nil in Hin.
  - apply NoDup_cons in Hnd as [Hc0 Hnd].
    destruct (Hopen c0) as (cl0 & Hh0 & Ho0); [by left|].
    set (s1 := set_heap (<[c0 := set_send (mkChan (buf (send cl0))
                                              (cap (send cl0)) true) cl0]>) s).
    destruct (IH s1 Hnd) as (s' & E' & Hhub & Hon & Hst & Hin & Hout).
    { intros c Hc. destruct (Hopen c) as (cl & Hh & Ho); [by right|].
      exists cl. split; [|done]. simpl.
      rewrite lookup_insert_ne; [done|]. by intros ->. }
    exists s'. split.
    { simpl. unfold mbind at 1, M_bind. unfold mbind at 1, M_bind, deref.
      rewrite Hh0. unfold close. rewrite Ho0. exact E'. }
    split; [by rewrite Hhub|]. split; [by rewrite Hon|]. split; [by rewrite Hst|].
    split.
    + intros c cl Hc Hh. apply elem_of_cons in Hc as [-> | Hc].
      * rewrite Hh0 in Hh. injection Hh as <-.
        rewrite (Hout c0 Hc0). simpl. by rewrite lookup_insert_eq.
      * apply Hin; [done|]. simpl. rewrite lookup_insert_ne; [done|]. by intros ->.
    + intros c Hc. apply not_elem_of_cons in Hc as [Hne Hc].
      rewrite (Hout c Hc). simpl. by rewrite lookup_insert_ne.
Qed.

(** The broadcast loop touches neither the broadcast channel of the Hub
    nor anything outside the clients and the live set. *)
Lemma broadcast_loop_frame data (l : list ptr) : ∀ s s',
  for_each l (deliver data) s = Ret tt s' →
  broadcast (hub s') = broadcast (hub s) ∧
  returned (hub s') = returned (hub s) ∧
  store_ s' = store_ s ∧ disk s' = disk s ∧
  online s' = online s ∧ pool s' = pool s.
Proof.
  induction l as [|x l IH]; intros s s'; simpl.
  - by intros [= <-].
  - unfold mbind at 1, M_bind.
    destruct (deliver data x s) as [[] sx| |] eqn:Ex; [|done..].
    intros El. destruct (IH _ _ El) as (-> & -> & -> & -> & -> & ->).
    revert Ex. unfold deliver, deref, store_client, printf, modify, panic.
    unfold mbind, M_bind, mret, M_ret.
    destruct (heap s !! x) as [cx|]; [|done].
    destruct (try_send data (send cx)); [by intros [= <-]| |done].
    simpl. destruct (close (send cx)); [by intros [= <-]|done].
Qed.

(** X11: the register case of [Run] puts the client in the live set and
    changes nothing else: the other clients are live or not as before, the
    heap, the broadcast queue, the online index and the store are the same;
    for a client that is live already the live set is unchanged. *)
Theorem X11_register_adds_to_live_set (s : State) (c : ptr) :
  is_Some (heap s !! c) →
  ∃ s', Run_register c s = Ret tt s' ∧
    obs.live s' c ∧
    (∀ c', c' ≠ c → (obs.live s' c' ↔ obs.live s c')) ∧
    heap s' = heap s ∧ broadcast (hub s') = broadcast (hub s) ∧
    online s' = online s ∧ store_ s' = store_ s ∧
    (clients (hub s) !! c = Some true → clients (hub s') = clients (hub s)).
Proof.
  intros [cl Hc].
  destruct (Run_register_eq c s cl Hc) as (s' & E & Hh & Hcl & Hb & _ & Ho & Hs).
  exists s'. split; [exact E|]. unfold obs.live. rewrite Hcl.
  split; [by rewrite lookup_insert_eq|].
  split; [by intros c' Hne; rewrite lookup_insert_ne|].
  repeat split; try done. intros Hl. by apply insert_id.
Qed.

(** X12: the unregister case of [Run] removes a live client from the live
    set and closes its send channel, its queue and the other clients as
    they were; for a client that is not live it changes nothing, so a second
    unregister of the same client is a no-op (no channel is closed twice). *)
Theorem X12_unregister_once (s : State) (c : ptr) :
  obs.live s c → obs.send_open s c →
  ∃ s', Run_unregister c s = Ret tt s' ∧
    ¬ obs.live s' c ∧ obs.send_closed s' c ∧
    obs.outbox s' c = obs.outbox s c ∧
    (∀ c', c' ≠ c → heap s' !! c' = heap s !! c' ∧
                    (obs.live s' c' ↔ obs.live s c')) ∧
    online s' = online s ∧
    Run_unregister c s' = Ret tt s'.
Proof.
  intros [v Hl] (cl & Hc & Ho).
  destruct (Run_unregister_live c s cl v Hl Hc Ho)
    as (s' & E & Hh & Hcl & _ & _ & Hon & _).
  exists s'. split; [exact E|]. unfold obs.live, obs.send_closed, obs.outbox.
  rewrite Hh, Hcl, Hc. split; [|split; [|split; [|split; [|split]]]].
  - rewrite lookup_delete_eq. by intros [? ?].
  - eexists. split; [by rewrite lookup_insert_eq|done].
  - by rewrite lookup_insert_eq.
  - intros c' Hne. by rewrite lookup_insert_ne, lookup_delete_ne.
  - done.
  - apply Run_unregister_absent. rewrite Hcl. by rewrite lookup_delete_eq.
Qed.

(** X13: a turn of [Run] never panics in a state where the live clients
    have open send channels, and it leaves such a state as long as [Run] has
    not returned (a client that registers comes with an open channel). *)
Theorem X13_run_turn_keeps_hub_ok (s : State) (ev : Event) (order : list ptr) :
  obs.hub_ok s → ranges order (clients (hub s)) →
  (∀ c, ev = EvRegister c → obs.send_open s c) →
  Run_turn ev order s ≠ Panic
  ∧ ∀ s', Run_turn ev order s = Ret tt s' →
          returned (hub s') = false → obs.hub_ok s'.
Proof.
  intros Hok Hrange Hreg.
  destruct (ranges_keys _ _ Hrange) as [Hnd Hmem].
  remember (Run_turn ev order s) as res eqn:Er.
  unfold Run_turn, get in Er. unfold mbind at 1, M_bind in Er.
  destruct (returned (hub s)) eqn:Hret; [subst res; split; [done|by intros ? [=]]|].
  destruct ev as [c|c| |].
  - destruct (Hreg c eq_refl) as (cl & Hc & Ho).
    destruct (Run_register_eq c s cl Hc) as (s1 & E & Hh & Hcl & _).
    rewrite E in Er. subst res. split; [done|]. intros s' [= <-] _ c' [v Hv].
    rewrite Hcl in Hv. unfold obs.send_open. rewrite Hh.
    destruct (decide (c' = c)) as [->|Hne]; [by exists cl|].
    rewrite lookup_insert_ne in Hv by done. apply Hok. by exists v.
  - destruct (clients (hub s) !! c) as [v|] eqn:Hl.
    + destruct (Hok c) as (cl & Hc & Ho); [by exists v|].
      destruct (Run_unregister_live c s cl v Hl Hc Ho) as (s1 & E & Hh & Hcl & _).
      rewrite E in Er. subst res. split; [done|]. intros s' [= <-] _ c' [v' Hv].
      rewrite Hcl in Hv. unfold obs.send_open. rewrite Hh.
      destruct (decide (c' = c)) as [->|Hne];
        [by rewrite lookup_delete_eq in Hv|].
      rewrite lookup_delete_ne in Hv by done.
      rewrite lookup_insert_ne by done. apply Hok. by exists v'.
    + rewrite (Run_unregister_absent c s Hl) in Er. subst res. split; [done|].
      by intros s' [= <-] _.
  - destruct (buf (broadcast (hub s))) as [|data rest] eqn:Hb;
      [subst res; split; [done|by intros ? [=]]|].
    unfold mbind, M_bind, modify in Er.
    set (s0 := set_hub _ s) in Er.
    assert (Hok0 : obs.hub_ok s0) by exact Hok.
    assert (Hr0 : ranges order (clients (hub s0))) by exact Hrange.
    destruct (broadcast_loop data order s0 Hnd) as (s1 & E & _).
    { intros c Hc. apply Hok0. by apply Hmem. }
    pose proof E as E0. unfold Run_broadcast in Er. rewrite E in Er. subst res.
    split; [done|].
    intros s' [= <-] _. by apply (Run_broadcast_hub_ok s0 s1 data order).
  - destruct (done (hub s)); [|subst res; split; [done|by intros ? [=]]].
    destruct (done_loop order s Hnd) as (s1 & E & Hhub & _).
    { intros c Hc. apply Hok. by apply Hmem. }
    unfold Run_done in Er. rewrite (bind_Ret _ _ _ _ _ E) in Er.
    unfold modify in Er. subst res.
    split; [done|]. intros s' [= <-]. simpl. done.
Qed.


(** X15: two broadcasts in a row reach a connection in the order they were
    taken: a live client with room for two packets has the first and then
    the second at the end of its queue, whatever the orders of the two
    ranges over the live set. *)
Theorem X15_broadcasts_keep_order (s : State) (d1 d2 : protocol.Packet)
  (o1 o2 : list ptr) (s1 : State) :
  obs.hub_ok s → ranges o1 (clients (hub s)) →
  Run_broadcast o1 d1 s = Ret tt s1 →
  ranges o2 (clients (hub s1)) →
  ∃ s2, Run_broadcast o2 d2 s1 = Ret tt s2 ∧
    ∀ c cl, obs.live s c → heap s !! c = Some cl →
      length (buf (send cl)) + 2 ≤ cap (send cl) →
      obs.live s2 c ∧ obs.outbox s2 c = obs.outbox s c ++ [d1; d2].
Proof.
  intros Hok Hr1 E1 Hr2.
  destruct (ranges_keys _ _ Hr1) as [Hnd1 Hmem1].
  destruct (ranges_keys _ _ Hr2) as [Hnd2 Hmem2].
  pose proof (Run_broadcast_hub_ok s s1 d1 o1 Hok Hr1 E1) as Hok1.
  destruct (broadcast_loop d1 o1 s Hnd1) as (s1' & E1' & Hin1 & Hout1).
  { intros c Hc. apply Hok. by apply Hmem1. }
  unfold Run_broadcast in E1. rewrite E1' in E1. injection E1 as ->.
  destruct (broadcast_loop d2 o2 s1 Hnd2) as (s2 & E2 & Hin2 & Hout2).
  { intros c Hc. apply Hok1. by apply Hmem2. }
  exists s2. split; [exact E2|].
  intros c cl Hl Hc Hroom.
  destruct (Hin1 c cl (proj2 (Hmem1 c) Hl) Hc) as [Hr _].
  destruct Hr as [Hc1 Hl1]; [lia|].
  assert (Hlive1 : is_Some (clients (hub s1) !! c)) by (by rewrite Hl1).
  destruct (Hin2 c _ (proj2 (Hmem2 c) Hlive1) Hc1) as [Hr _].
  destruct Hr as [Hc2 Hl2]; [simpl; rewrite length_app; simpl; lia|].
  split.
  - unfold obs.live. by rewrite Hl2.
  - unfold obs.outbox. rewrite Hc2, Hc. simpl. by rewrite <- app_assoc.
Qed.

End hub_more.

(* ===================================================================== *)
(** ** More on the handlers *)
(* ===================================================================== *)

Section handlers_more.

Context `{Digest}.
Import GoStrings server.

Lemma sendPacket_offered c pkt s cl :
  heap s !! c = Some cl → closed (send cl) = false →
  sendPacket c pkt s = Ret tt (obs.offered c pkt s).
Proof.
  intros Hc Ho. unfold obs.offered. rewrite Hc.
  destruct (Nat.ltb_spec (length (buf (send cl))) (cap (send cl))) as [Hr|Hf].
  - by apply (sendPacket_room c pkt s cl).
  - by apply (sendPacket_full c pkt s cl).
Qed.

(** Offering a packet to [c] changes at most the queue of [c]. *)
Lemma offered_fields c pkt s :
  hub (obs.offered c pkt s) = hub s ∧
  store_ (obs.offered c pkt s) = store_ s ∧
  disk (obs.offered c pkt s) = disk s ∧
  pool (obs.offered c pkt s) = pool s ∧
  online (obs.offered c pkt s) = online s ∧
  log (obs.offered c pkt s) = log s ∧
  connID (obs.offered c pkt s) = connID s ∧
  (∀ c', c' ≠ c → heap (obs.offered c pkt s) !! c' = heap s !! c') ∧
  obs.identity (obs.offered c pkt s) c = obs.identity s c.
Proof.
  unfold obs.offered, obs.identity.
  destruct (heap s !! c) as [cl|] eqn:Hc; [|by rewrite Hc].
  destruct (length (buf (send cl)) <? cap (send cl)); [|by rewrite Hc].
  unfold obs.queued. rewrite Hc. simpl. rewrite lookup_insert_eq.
  repeat split; try done. intros c' Hne. by rewrite lookup_insert_ne.
Qed.

Lemma offered_client c pkt s cl :
  heap s !! c = Some cl →
  ∃ cl', heap (obs.offered c pkt s) !! c = Some cl' ∧
    id cl' = id cl ∧ conn_closed cl' = conn_closed cl ∧
    userID cl' = userID cl ∧ username cl' = username cl ∧
    cap (send cl') = cap (send cl) ∧
    (closed (send cl) = false → closed (send cl') = false) ∧
    (length (buf (send cl)) < cap (send cl) →
     buf (send cl') = buf (send cl) ++ [pkt]) ∧
    (cap (send cl) ≤ length (buf (send cl)) → cl' = cl).
Proof.
  intros Hc. unfold obs.offered. rewrite Hc.
  destruct (Nat.ltb_spec (length (buf (send cl))) (cap (send cl))) as [Hr|Hf].
  - unfold obs.queued. rewrite Hc. simpl. rewrite lookup_insert_eq.
    eexists. split; [reflexivity|]. simpl. repeat split; try done. lia.
  - exists cl. repeat split; try done. lia.
Qed.

Lemma setIdentity_eq c uid un s cl :
  heap s !! c = Some cl →
  setIdentity c uid un s
  = Ret tt (set_heap (<[c := mkClient (id cl) (conn_closed cl) (send cl) uid un]>) s).
Proof.
  intros Hc. unfold setIdentity, deref, store_client, modify.
  unfold mbind, M_bind. by rewrite Hc.
Qed.

Lemma hub_broadcast_send_room data s :
  closed (broadcast (hub s)) = false →
  length (buf (broadcast (hub s))) < cap (broadcast (hub s)) →
  hub_broadcast_send data s
  = Ret tt (set_hub (set_broadcast
              (mkChan (buf (broadcast (hub s)) ++ [data])
                 (cap (broadcast (hub s))) false)) s).
Proof.
  intros Ho Hr. unfold hub_broadcast_send, get, modify. unfold mbind, M_bind.
  rewrite Ho. by rewrite (proj2 (Nat.ltb_lt _ _) Hr).
Qed.

(** What follows a successful login or registration: the identity is
    bound, the connection is filed in the online index, the response is
    offered, the join notice is put on the broadcast channel, and a line is
    logged. *)
Lemma join_tail c uid un (resp : protocol.Packet) (note : fmt.Text)
  (format : string) (args : list fmt.Arg) s cl :
  heap s !! c = Some cl → closed (send cl) = false →
  closed (broadcast (hub s)) = false →
  length (buf (broadcast (hub s))) < cap (broadcast (hub s)) →
  ∃ s',
    (setIdentity c uid un;; addOnline c;; sendPacket c resp;;
     broadcastSystem note;; printf format args) s = Ret tt s' ∧
    obs.identity s' c = protocol.mkInfo uid un ∧
    online s' = <[uid := c]> (online s) ∧
    buf (broadcast (hub s'))
    = buf (broadcast (hub s)) ++ [protocol.System note] ∧
    clients (hub s') = clients (hub s) ∧
    store_ s' = store_ s ∧ disk s' = disk s ∧ pool s' = pool s ∧
    (∀ c', c' ≠ c → heap s' !! c' = heap s !! c') ∧
    obs.send_open s' c ∧
    (length (buf (send cl)) < cap (send cl) →
     obs.outbox s' c = obs.outbox s c ++ [resp]) ∧
    (cap (send cl) ≤ length (buf (send cl)) →
     obs.outbox s' c = obs.outbox s c).
Proof.
  intros Hc Ho Hbo Hbr.
  set (cl1 := mkClient (id cl) (conn_closed cl) (send cl) uid un).
  set (s1 := set_heap (<[c := cl1]>) s).
  set (s2 := set_online (<[uid := c]>) s1).
  assert (Hc1 : heap s1 !! c = Some cl1) by (simpl; by rewrite lookup_insert_eq).
  assert (Hc2 : heap s2 !! c = Some cl1) by exact Hc1.
  assert (E1 : setIdentity c uid un s = Ret tt s1) by (by apply setIdentity_eq).
  assert (E2 : addOnline c s1 = Ret tt s2).
  { unfold addOnline, deref, modify. unfold mbind, M_bind. by rewrite Hc1. }
  assert (E3 : sendPacket c resp s2 = Ret tt (obs.offered c resp s2)).
  { by apply (sendPacket_offered c resp s2 cl1). }
  destruct (offered_fields c resp s2)
    as (Hhub & Hst & Hdisk & Hpool & Hon & Hlog & Hcid & Hother & Hident).
  destruct (offered_client c resp s2 cl1 Hc2)
    as (cl3 & Hc3 & _ & _ & _ & _ & _ & Hopen3 & Hroom3 & Hfull3).
  set (s3 := obs.offered c resp s2) in *.
  assert (E4 : broadcastSystem note s3
               = Ret tt (set_hub (set_broadcast
                   (mkChan (buf (broadcast (hub s3)) ++ [protocol.System note])
                      (cap (broadcast (hub s3))) false)) s3)).
  { apply hub_broadcast_send_room; by rewrite Hhub. }
  eexists. split.
  { rewrite (bind_Ret _ _ _ _ _ E1), (bind_Ret _ _ _ _ _ E2),
      (bind_Ret _ _ _ _ _ E3), (bind_Ret _ _ _ _ _ E4).
    unfold printf, modify. reflexivity. }
  simpl. rewrite Hhub, Hst, Hdisk, Hpool, Hon. simpl.
  unfold obs.identity, obs.send_open, obs.outbox. simpl. rewrite Hc3, Hc.
  assert (Hid3 : protocol.mkInfo (userID cl3) (username cl3) = protocol.mkInfo uid un).
  { pose proof Hident as Hi. unfold obs.identity in Hi.
    fold s3 in Hi. rewrite Hc3, Hc2 in Hi. exact Hi. }
  split; [exact Hid3|]. split; [done|]. split; [done|]. split; [done|].
  split; [done|]. split; [done|]. split; [done|]. split.
  { intros c' Hne. rewrite (Hother c' Hne). simpl. by rewrite lookup_insert_ne. }
  split; [exists cl3; split; [done | by apply Hopen3]|].
  split.
  - intros Hr. by rewrite (Hroom3 Hr).
  - intros Hf. by rewrite (Hfull3 Hf).
Qed.

Lemma Authenticate_cases username password st :
  (∃ u, store.Authenticate username password st = (Some u, None))
  ∨ (∃ er, store.Authenticate username password st = (None, Some er)).
Proof.
  unfold store.Authenticate.
  destruct (store.users st !! ToLower username) as [a|]; [|right; by eexists].
  destruct (String.eqb (store.PasswordHash a) (store.hashPassword password));
    [left | right]; by eexists.
Qed.

Lemma set_store_same s : set_store (store_ s) (disk s) s = s.
Proof. by destruct s. Qed.

(** X18: a login that cannot succeed (the payload does not decode, the
    username or the password is empty, or [Authenticate] refuses) is
    answered with an error response and changes nothing else: the
    connection keeps the identity it had, and the online index, the Hub
    and the store are as before. *)
Theorem X18_login_failure_only_answers (s : State) (c : ptr) (cl : Client)
  (raw : option json.Value) :
  heap s !! c = Some cl → closed (send cl) = false →
  (∀ p, json.into_struct protocol.set_Auth zero_Auth raw = Some p →
        protocol.auth_Username p ≠ "" → protocol.auth_Password p ≠ "" →
        (store.Authenticate (protocol.auth_Username p)
           (protocol.auth_Password p) (store_ s)).2 ≠ None) →
  ∃ msg s',
    handleLogin c raw s = Ret tt s' ∧
    s' = obs.offered c (obs.error_response msg) s ∧
    obs.identity s' c = obs.identity s c ∧
    online s' = online s ∧ hub s' = hub s ∧ store_ s' = store_ s.
Proof.
  intros Hc Ho Hfail.
  assert (Hans : ∀ msg, ∃ s',
            sendError c msg s = Ret tt s' ∧
            s' = obs.offered c (obs.error_response msg) s ∧
            obs.identity s' c = obs.identity s c ∧
            online s' = online s ∧ hub s' = hub s ∧ store_ s' = store_ s).
  { intros msg. eexists. split; [by apply (sendPacket_offered c _ s cl)|].
    split; [done|].
    destruct (offered_fields c (obs.error_response msg) s)
      as (? & ? & ? & ? & ? & ? & ? & ? & ?). done. }
  unfold handleLogin.
  destruct (json.into_struct protocol.set_Auth zero_Auth raw) as [p|] eqn:Hp;
    [|eexists; apply Hans].
  destruct (String.eqb_spec (protocol.auth_Username p) "") as [Eu|Nu];
    [eexists; apply Hans|].
  destruct (String.eqb_spec (protocol.auth_Password p) "") as [Ep|Np];
    [eexists; apply Hans|].
  simpl. unfold mbind at 1, M_bind, get.
  specialize (Hfail p eq_refl Nu Np).
  destruct (Authenticate_cases (protocol.auth_Username p)
              (protocol.auth_Password p) (store_ s)) as [[u E]|[er E]];
    rewrite E in *; [done|].
  eexists. apply Hans.
Qed.

(** X19: a login that [Authenticate] accepts binds the identity of the
    account to the connection, files the connection in the online index
    under the ID of the account, offers the success response to the
    connection and puts exactly one join notice on the broadcast channel of
    the Hub (which has room); the live set, the store and the other clients
    are untouched. *)
Theorem X19_login_success_effect (s : State) (c : ptr) (cl : Client)
  (raw : option json.Value) (p : protocol.AuthPayload) (u : store.User) :
  heap s !! c = Some cl → closed (send cl) = false →
  closed (broadcast (hub s)) = false →
  length (buf (broadcast (hub s))) < cap (broadcast (hub s)) →
  json.into_struct protocol.set_Auth zero_Auth raw = Some p →
  protocol.auth_Username p ≠ "" → protocol.auth_Password p ≠ "" →
  store.Authenticate (protocol.auth_Username p) (protocol.auth_Password p)
    (store_ s) = (Some u, None) →
  ∃ s',
    handleLogin c raw s = Ret tt s' ∧
    obs.identity s' c = protocol.mkInfo (store.ID u) (store.Username u) ∧
    online s' = <[store.ID u := c]> (online s) ∧
    buf (broadcast (hub s'))
    = buf (broadcast (hub s))
      ++ [protocol.System (fmt.Sprintf "%s joined the chat"
                             [fmt.ArgS (store.Username u)])] ∧
    clients (hub s') = clients (hub s) ∧ store_ s' = store_ s ∧
    (∀ c', c' ≠ c → heap s' !! c' = heap s !! c') ∧
    (length (buf (send cl)) < cap (send cl) →
     obs.outbox s' c
     = obs.outbox s c
       ++ [protocol.Response
             (protocol.mkResponse true
                (fmt.Sprintf "logged in as %q" [fmt.ArgS (store.Username u)])
                protocol.NoData)]).
Proof.
  intros Hc Ho Hbo Hbr Hp Nu Np Hauth.
  unfold handleLogin. rewrite Hp.
  destruct (String.eqb_spec (protocol.auth_Username p) "") as [Eu|_]; [done|].
  destruct (String.eqb_spec (protocol.auth_Password p) "") as [Ep|_]; [done|].
  simpl. unfold mbind at 1, M_bind, get. rewrite Hauth.
  destruct (join_tail c (store.ID u) (store.Username u)
              (protocol.Response
                 (protocol.mkResponse true
                    (fmt.Sprintf "logged in as %q" [fmt.ArgS (store.Username u)])
                    protocol.NoData))
              (fmt.Sprintf "%s joined the chat" [fmt.ArgS (store.Username u)])
              "[server] login %s (%s)"
              [fmt.ArgS (store.Username u); fmt.ArgS (store.ID u)]
              s cl Hc Ho Hbo Hbr)
    as (s' & E & Hid & Hon & Hb & Hcl & Hst & _ & _ & Hother & _ & Hroom & _).
  exists s'. split; [exact E|]. done.
Qed.

(** X20: a registration that cannot be tried (the payload does not decode,
    or the username or the password is empty) or whose username is taken,
    under any case variation, is answered with an error response and changes
    nothing else: no account is created, the store and the disk are the
    same, and the connection keeps the identity it had. *)
Theorem X20_register_refused_only_answers (e : Env) (s : State) (c : ptr)
  (cl : Client) (raw : option json.Value) :
  heap s !! c = Some cl → closed (send cl) = false →
  (∀ p, json.into_struct protocol.set_Auth zero_Auth raw = Some p →
        protocol.auth_Username p ≠ "" → protocol.auth_Password p ≠ "" →
        is_Some (store.users (store_ s) !! ToLower (protocol.auth_Username p))) →
  ∃ msg s',
    handleRegister e c raw s = Ret tt s' ∧
    s' = obs.offered c (obs.error_response msg) s ∧
    store_ s' = store_ s ∧ disk s' = disk s ∧
    obs.identity s' c = obs.identity s c ∧
    online s' = online s ∧ hub s' = hub s.
Proof.
  intros Hc Ho Htaken.
  assert (Hans : ∀ msg, ∃ s',
            sendError c msg s = Ret tt s' ∧
            s' = obs.offered c (obs.error_response msg) s ∧
            store_ s' = store_ s ∧ disk s' = disk s ∧
            obs.identity s' c = obs.identity s c ∧
            online s' = online s ∧ hub s' = hub s).
  { intros msg. eexists. split; [by apply (sendPacket_offered c _ s cl)|].
    split; [done|].
    destruct (offered_fields c (obs.error_response msg) s)
      as (? & ? & ? & ? & ? & ? & ? & ? & ?). done. }
  unfold handleRegister.
  destruct (json.into_struct protocol.set_Auth zero_Auth raw) as [p|] eqn:Hp;
    [|eexists; apply Hans].
  destruct (String.eqb_spec (protocol.auth_Username p) "") as [Eu|Nu];
    [eexists; apply Hans|].
  destruct (String.eqb_spec (protocol.auth_Password p) "") as [Ep|Np];
    [eexists; apply Hans|].
  simpl. unfold mbind at 1, M_bind, get.
  destruct (Htaken p eq_refl Nu Np) as [a Ha].
  unfold store.RegisterUser. rewrite Ha.
  unfold mbind at 1, M_bind, modify. rewrite set_store_same.
  eexists. apply Hans.
Qed.

(** X21: a registration of a free username on a disk that takes the write
    creates the account, binds its identity to the connection, files the
    connection in the online index, offers the success response and puts
    exactly one join notice on the broadcast channel of the Hub (which has
    room); the live set and the other clients are untouched. *)
Theorem X21_register_success_effect (e : Env) (s : State) (c : ptr)
  (cl : Client) (raw : option json.Value) (p : protocol.AuthPayload) :
  heap s !! c = Some cl → closed (send cl) = false →
  closed (broadcast (hub s)) = false →
  length (buf (broadcast (hub s))) < cap (broadcast (hub s)) →
  json.into_struct protocol.set_Auth zero_Auth raw = Some p →
  protocol.auth_Username p ≠ "" → protocol.auth_Password p ≠ "" →
  store.users (store_ s) !! ToLower (protocol.auth_Username p) = None →
  os.wfault (disk s) = None →
  let u := store.mkUser (store.generateID (clock_id e) (rnd e))
             (protocol.auth_Username p)
             (store.hashPassword (protocol.auth_Password p)) (clock e) in
  ∃ s',
    handleRegister e c raw s = Ret tt s' ∧
    store.users (store_ s') !! ToLower (protocol.auth_Username p) = Some u ∧
    store.messages (store_ s') = store.messages (store_ s) ∧
    obs.identity s' c = protocol.mkInfo (store.ID u) (store.Username u) ∧
    online s' = <[store.ID u := c]> (online s) ∧
    buf (broadcast (hub s'))
    = buf (broadcast (hub s))
      ++ [protocol.System (fmt.Sprintf "%s joined the chat"
                             [fmt.ArgS (store.Username u)])] ∧
    clients (hub s') = clients (hub s) ∧
    (∀ c', c' ≠ c → heap s' !! c' = heap s !! c') ∧
    (length (buf (send cl)) < cap (send cl) →
     obs.outbox s' c
     = obs.outbox s c
       ++ [protocol.Response
             (protocol.mkResponse true
                (fmt.Sprintf "registered and logged in as %q"
                   [fmt.ArgS (store.Username u)])
                protocol.NoData)]).
Proof.
  intros Hc Ho Hbo Hbr Hp Nu Np Hfree Hd u.
  unfold handleRegister. rewrite Hp.
  destruct (String.eqb_spec (protocol.auth_Username p) "") as [Eu|_]; [done|].
  destruct (String.eqb_spec (protocol.auth_Password p) "") as [Ep|_]; [done|].
  simpl. unfold mbind at 1, M_bind, get.
  unfold store.RegisterUser. rewrite Hfree.
  unfold store.saveUsersLocked, store.saveUsers_in, store.writeJSON, os.WriteFile.
  cbn [store.dataDir store.users]. rewrite Hd. cbn [fmap option_fmap option_map].
  unfold mbind at 1, M_bind, modify.
  match goal with
  | |- context [set_store ?st ?d s] => set (s0 := set_store st d s)
  end.
  destruct (join_tail c (store.ID u) (store.Username u)
              (protocol.Response
                 (protocol.mkResponse true
                    (fmt.Sprintf "registered and logged in as %q"
                       [fmt.ArgS (store.Username u)])
                    protocol.NoData))
              (fmt.Sprintf "%s joined the chat" [fmt.ArgS (store.Username u)])
              "[server] registered %s (%s)"
              [fmt.ArgS (store.Username u); fmt.ArgS (store.ID u)]
              s0 cl Hc Ho Hbo Hbr)
    as (s' & E & Hid & Hon & Hb & Hcl & Hst & _ & _ & Hother & _ & Hroom & _).
  exists s'. split; [exact E|]. rewrite Hst. simpl.
  split; [by rewrite lookup_insert_eq|]. done.
Qed.

(** X22: a registration of a free username on a disk that refuses the
    write is answered with the error of the write: the connection is not
    given the identity and is not filed in the online index, and no join
    notice is sent; yet the account is in the store, and [Authenticate]
    accepts it with the password of the registration. *)
Theorem X22_register_write_error (e : Env) (s : State) (c : ptr)
  (cl : Client) (raw : option json.Value) (p : protocol.AuthPayload)
  (er : string) :
  heap s !! c = Some cl → closed (send cl) = false →
  json.into_struct protocol.set_Auth zero_Auth raw = Some p →
  protocol.auth_Username p ≠ "" → protocol.auth_Password p ≠ "" →
  store.users (store_ s) !! ToLower (protocol.auth_Username p) = None →
  os.wfault (disk s) = Some er →
  let u := store.mkUser (store.generateID (clock_id e) (rnd e))
             (protocol.auth_Username p)
             (store.hashPassword (protocol.auth_Password p)) (clock e) in
  ∃ s',
    handleRegister e c raw s = Ret tt s' ∧
    obs.identity s' c = obs.identity s c ∧
    online s' = online s ∧ hub s' = hub s ∧ disk s' = disk s ∧
    (length (buf (send cl)) < cap (send cl) →
     obs.outbox s' c = obs.outbox s c ++ [obs.error_response (fmt.Lit er)]) ∧
    store.users (store_ s') !! ToLower (protocol.auth_Username p) = Some u ∧
    store.Authenticate (protocol.auth_Username p) (protocol.auth_Password p)
      (store_ s') = (Some u, None).
Proof.
  intros Hc Ho Hp Nu Np Hfree Hd u.
  unfold handleRegister. rewrite Hp.
  destruct (String.eqb_spec (protocol.auth_Username p) "") as [Eu|_]; [done|].
  destruct (String.eqb_spec (protocol.auth_Password p) "") as [Ep|_]; [done|].
  simpl. unfold mbind at 1, M_bind, get.
  unfold store.RegisterUser. rewrite Hfree.
  unfold store.saveUsersLocked, store.saveUsers_in, store.writeJSON, os.WriteFile.
  cbn [store.dataDir store.users]. rewrite Hd. cbn [fmap option_fmap option_map].
  unfold mbind at 1, M_bind, modify.
  match goal with
  | |- context [set_store ?st ?d s] => set (s0 := set_store st d s)
  end.
  assert (Hc0 : heap s0 !! c = Some cl) by exact Hc.
  exists (obs.offered c (obs.error_response (fmt.Lit er)) s0).
  split; [by apply (sendPacket_offered c _ s0 cl)|].
  destruct (offered_fields c (obs.error_response (fmt.Lit er)) s0)
    as (Hhub & Hst & Hdisk & _ & Hon & _ & _ & _ & Hident).
  destruct (offered_client c (obs.error_response (fmt.Lit er)) s0 cl Hc0)
    as (cl' & Hc' & _ & _ & _ & _ & _ & _ & Hroom & _).
  rewrite Hident, Hon, Hhub, Hdisk, Hst.
  split; [unfold obs.identity; by rewrite Hc0, Hc|].
  split; [done|]. split; [done|]. split; [done|].
  split.
  { intros Hr. unfold obs.outbox. rewrite Hc', Hc. by rewrite (Hroom Hr). }
  simpl. split; [by rewrite lookup_insert_eq|].
  unfold store.Authenticate. simpl. rewrite lookup_insert_eq. simpl.
  by rewrite String.eqb_refl.
Qed.

(** [handleChat] for a chat that is accepted, the broadcast channel having
    room. *)
Lemma handleChat_effect (e : Env) (s : State) (c : ptr) (cl : Client)
  (raw : option json.Value) (p : protocol.ChatPayload) :
  heap s !! c = Some cl → userID cl ≠ "" →
  json.into_struct protocol.set_Chat zero_Chat raw = Some p →
  protocol.chat_Content p ≠ "" →
  closed (broadcast (hub s)) = false →
  length (buf (broadcast (hub s))) < cap (broadcast (hub s)) →
  closed (jobs (pool s)) = false →
  ∃ s1, handleChat e c raw s = Ret tt s1 ∧
    heap s1 = heap s ∧ clients (hub s1) = clients (hub s) ∧
    returned (hub s1) = returned (hub s) ∧
    cap (broadcast (hub s1)) = cap (broadcast (hub s)) ∧
    closed (broadcast (hub s1)) = false ∧
    buf (broadcast (hub s1))
    = buf (broadcast (hub s))
      ++ [protocol.Broadcast
            (protocol.mkBroadcast (userID cl) (username cl)
               (protocol.chat_Content p) (clock e))] ∧
    store_ s1 = store_ s ∧ disk s1 = disk s ∧ online s1 = online s ∧
    cap (jobs (pool s1)) = cap (jobs (pool s)) ∧
    closed (jobs (pool s1)) = false ∧
    (length (buf (jobs (pool s))) < cap (jobs (pool s)) →
     buf (jobs (pool s1))
     = buf (jobs (pool s))
       ++ [protocol.mkMsg (fmt.Itoa (time.UnixNano (clock e))) (userID cl)
             (username cl) (protocol.chat_Content p) (clock e)]).
Proof.
  intros Hc Hid Hp Hne Hbo Hbr Hjo.
  assert (Ha : isAuthenticated c s = Ret true s).
  { rewrite (isAuthenticated_eq c s cl Hc).
    destruct (String.eqb_spec (userID cl) ""); done. }
  unfold handleChat. rewrite (bind_Ret _ _ _ _ _ Ha). simpl. rewrite Hp.
  destruct (String.eqb_spec (protocol.chat_Content p) "") as [E|_]; [done|].
  unfold mbind at 1, M_bind, deref. rewrite Hc. simpl.
  unfold hub_broadcast_send, submit, printf, modify, get.
  unfold mbind, M_bind, mret, M_ret. simpl.
  rewrite Hbo. rewrite (proj2 (Nat.ltb_lt _ _) Hbr). simpl.
  unfold try_send. rewrite Hjo.
  destruct (Nat.ltb_spec (length (buf (jobs (pool s)))) (cap (jobs (pool s))))
    as [Hjr|Hjf]; simpl.
  - eexists. split; [reflexivity|]. simpl. repeat split; try done.
  - eexists. split; [reflexivity|]. simpl. repeat split; try done. lia.
Qed.

(** X16: a chat accepted while the broadcast channel of the Hub is empty,
    followed by the broadcast turn of [Run], reaches every client that is
    live with room in its send channel (the sender too, when it is one of
    them): the broadcast packet, with the identity of the sender, the
    content and the time of the chat, is the last of its queue; the
    broadcast channel is empty again. *)
Theorem X16_chat_reaches_live_clients (e : Env) (s : State) (c : ptr)
  (cl : Client) (raw : option json.Value) (p : protocol.ChatPayload)
  (order : list ptr) :
  heap s !! c = Some cl → userID cl ≠ "" →
  json.into_struct protocol.set_Chat zero_Chat raw = Some p →
  protocol.chat_Content p ≠ "" →
  buf (broadcast (hub s)) = [] → closed (broadcast (hub s)) = false →
  0 < cap (broadcast (hub s)) →
  closed (jobs (pool s)) = false → returned (hub s) = false →
  obs.hub_ok s → ranges order (clients (hub s)) →
  ∃ s1 s2,
    handleChat e c raw s = Ret tt s1 ∧
    Run_turn EvBroadcast order s1 = Ret tt s2 ∧
    buf (broadcast (hub s2)) = [] ∧
    ∀ c', obs.live s c' → obs.has_room s c' →
      obs.live s2 c' ∧
      obs.outbox s2 c'
      = obs.outbox s c'
        ++ [protocol.Broadcast
              (protocol.mkBroadcast (userID cl) (username cl)
                 (protocol.chat_Content p) (clock e))].
Proof.
  intros Hc Hid Hp Hne Hbuf Hbo Hcap Hjo Hret Hok Hrange.
  destruct (handleChat_effect e s c cl raw p Hc Hid Hp Hne Hbo) as
    (s1 & E1 & Hh1 & Hcl1 & Hret1 & _ & _ & Hb1 & _); [rewrite Hbuf; simpl; lia|done|].
  rewrite Hbuf in Hb1. simpl in Hb1.
  destruct (ranges_keys _ _ Hrange) as [Hnd Hmem].
  set (data := protocol.Broadcast
                 (protocol.mkBroadcast (userID cl) (username cl)
                    (protocol.chat_Content p) (clock e))) in *.
  set (s0 := set_hub (set_broadcast
               (mkChan [] (cap (broadcast (hub s1)))
                  (closed (broadcast (hub s1))))) s1).
  destruct (broadcast_loop data order s0 Hnd) as (s2 & E2 & Hin & Hout).
  { intros c' Hc'. destruct (Hok c' (proj1 (Hmem c') Hc')) as (cl' & Hh' & Ho').
    exists cl'. split; [|done]. simpl. by rewrite Hh1. }
  destruct (broadcast_loop_frame data order s0 s2 E2) as (Hbc & _).
  exists s1, s2. split; [exact E1|]. split.
  { unfold Run_turn, get. unfold mbind at 1, M_bind. rewrite Hret1, Hret, Hb1.
    unfold mbind at 1, M_bind, modify. exact E2. }
  split; [by rewrite Hbc|].
  intros c' Hl (cl' & Hh' & Hr').
  assert (Hh0 : heap s0 !! c' = Some cl') by (simpl; by rewrite Hh1).
  destruct (Hin c' cl' (proj2 (Hmem c') Hl) Hh0) as [Hroom _].
  destruct (Hroom Hr') as [Hh2 Hl2]. split.
  - unfold obs.live. rewrite Hl2. simpl. rewrite Hcl1. exact Hl.
  - unfold obs.outbox. by rewrite Hh2, Hh'.
Qed.

(** X17: once the broadcast case has dropped a client whose send channel
    was full, any packet the server sends to that client panics (the
    channel is closed): so does the answer to a malformed line read from
    its connection. *)
Theorem X17_send_to_dropped_client_panics (e : Env) (s : State) (c : ptr)
  (data : protocol.Packet) (order : list ptr) :
  obs.hub_ok s → ranges order (clients (hub s)) →
  obs.live s c → obs.is_full s c →
  ∃ s', Run_broadcast order data s = Ret tt s' ∧
    (∀ pkt, sendPacket c pkt s' = Panic) ∧
    readPump_turn e c None s' = Panic.
Proof.
  intros Hok Hrange Hl (cl & Hc & Hf).
  destruct (ranges_keys _ _ Hrange) as [Hnd Hmem].
  destruct (broadcast_loop data order s Hnd) as (s' & E & Hin & _).
  { intros c' Hc'. apply Hok. by apply Hmem. }
  destruct (Hin c cl (proj2 (Hmem c) Hl) Hc) as [_ Hfull].
  destruct (Hfull Hf) as [Hc' _].
  assert (Hp : ∀ pkt, sendPacket c pkt s' = Panic).
  { intros pkt. unfold sendPacket, deref. unfold mbind, M_bind.
    by rewrite Hc'. }
  exists s'. split; [exact E|]. split; [exact Hp|]. apply Hp.
Qed.

(** X28: a chat accepted while the job queue is empty, followed by a turn
    of a worker, is the last message of the log of the store, with the
    identity of the sender, the content and the time of the chat; on a disk
    that takes the write the worker logs nothing. *)
Theorem X28_chat_is_persisted_by_worker (e : Env) (s : State) (c : ptr)
  (cl : Client) (raw : option json.Value) (p : protocol.ChatPayload) :
  heap s !! c = Some cl → userID cl ≠ "" →
  json.into_struct protocol.set_Chat zero_Chat raw = Some p →
  protocol.chat_Content p ≠ "" →
  closed (broadcast (hub s)) = false →
  length (buf (broadcast (hub s))) < cap (broadcast (hub s)) →
  buf (jobs (pool s)) = [] → closed (jobs (pool s)) = false →
  0 < cap (jobs (pool s)) →
  ∃ s1 s2,
    handleChat e c raw s = Ret tt s1 ∧
    worker_turn s1 = Ret tt s2 ∧
    store.messages (store_ s2)
    = store.messages (store_ s)
      ++ [protocol.mkMsg (fmt.Itoa (time.UnixNano (clock e))) (userID cl)
            (username cl) (protocol.chat_Content p) (clock e)] ∧
    store.users (store_ s2) = store.users (store_ s) ∧
    buf (jobs (pool s2)) = [] ∧
    (os.wfault (disk s) = None → log s2 = log s1).
Proof.
  intros Hc Hid Hp Hne Hbo Hbr Hjb Hjo Hjc.
  destruct (handleChat_effect e s c cl raw p Hc Hid Hp Hne Hbo Hbr Hjo) as
    (s1 & E1 & _ & _ & _ & _ & _ & _ & Hst & Hdisk & _ & _ & _ & Hjobs).
  rewrite Hjb in Hjobs. simpl in Hjobs. specialize (Hjobs Hjc).
  assert (Hturn : ∀ w, os.wfault (disk s) = w → ∃ s2,
            worker_turn s1 = Ret tt s2 ∧
            store_ s2 = store.mkStore (store.users (store_ s))
                          (store.byID (store_ s))
                          (store.messages (store_ s)
                             ++ [protocol.mkMsg (fmt.Itoa (time.UnixNano (clock e)))
                                   (userID cl) (username cl)
                                   (protocol.chat_Content p) (clock e)])
                          (store.dataDir (store_ s)) ∧
            buf (jobs (pool s2)) = [] ∧
            (w = None → log s2 = log s1)).
  { intros w Hw.
    unfold worker_turn, get, modify, printf. unfold mbind, M_bind, mret, M_ret.
    rewrite Hjobs. unfold store.SaveMessage, store.saveMessagesLocked,
      store.writeJSON, os.WriteFile. simpl. rewrite Hdisk, Hw, Hst.
    destruct w; simpl; eexists; (split; [reflexivity|]); done. }
  destruct (Hturn _ eq_refl) as (s2 & E2 & Hs2 & Hb2 & Hlog).
  exists s1, s2. split; [exact E1|]. split; [exact E2|].
  rewrite Hs2. simpl. done.
Qed.

(** X23: a users request of an authenticated connection is answered with
    one entry per key of the online index, the identity of the connection
    filed under it, and the count of these entries; nothing but the queue of
    the asking connection changes. *)
Theorem X23_users_lists_online_index (s : State) (c : ptr) (cl : Client) :
  heap s !! c = Some cl → userID cl ≠ "" → closed (send cl) = false →
  obs.index_valid s →
  let users := obs.identity s <$> (map_to_list (online s)).*2 in
  handleUsers c s
  = Ret tt (obs.offered c
              (protocol.Response
                 (protocol.mkResponse true
                    (fmt.Sprintf "%d user(s) online"
                       [fmt.ArgZ (Z.of_nat (size (online s)))])
                    (protocol.Users users))) s)
  ∧ length users = size (online s).
Proof.
  intros Hc Hid Ho Hv users.
  assert (Hlen : length users = size (online s)).
  { subst users. by rewrite !length_fmap, length_map_to_list. }
  split; [|exact Hlen].
  assert (Ha : isAuthenticated c s = Ret true s).
  { rewrite (isAuthenticated_eq c s cl Hc).
    destruct (String.eqb_spec (userID cl) ""); done. }
  assert (Hu : onlineUsers s = Ret users s).
  { unfold onlineUsers, get. unfold mbind, M_bind.
    rewrite onlineUsers_loop_eq; [done|].
    intros c' Hc'. apply list_elem_of_fmap in Hc' as ([k c''] & -> & Hin).
    apply elem_of_map_to_list in Hin. by apply (Hv k). }
  unfold handleUsers. rewrite (bind_Ret _ _ _ _ _ Ha). simpl.
  rewrite (bind_Ret _ _ _ _ _ Hu). rewrite Hlen.
  unfold sendResponse. by apply (sendPacket_offered c _ s cl).
Qed.

(** X24: a packet of an unknown type and a line that is not a packet are
    answered with an error response and change nothing else; in particular
    the connection is not closed.  A quit packet closes the connection and
    nothing else: until the reader of the connection ends, the client is
    live, and filed in the online index, as before. *)
Theorem X24_unknown_malformed_quit (e : Env) (s : State) (c : ptr)
  (cl : Client) (raw : option json.Value) :
  heap s !! c = Some cl → closed (send cl) = false →
  (∀ t, t ∉ [protocol.TypeRegister; protocol.TypeLogin; protocol.TypeChat;
             protocol.TypeSearch; protocol.TypeHistory; protocol.TypeUsers;
             protocol.TypeQuit] →
        handlePacket e c (protocol.mkIncoming t raw) s
        = Ret tt (obs.offered c
                    (obs.error_response
                       (fmt.Sprintf "unknown packet type %q" [fmt.ArgS t])) s))
  ∧ readPump_turn e c None s
    = Ret tt (obs.offered c (obs.error_response (fmt.Lit "malformed packet")) s)
  ∧ (∀ msg, ¬ obs.conn_is_closed s c →
            ¬ obs.conn_is_closed (obs.offered c (obs.error_response msg) s) c)
  ∧ handlePacket e c (protocol.mkIncoming protocol.TypeQuit raw) s
    = Ret tt (set_heap (<[c := mkClient (id cl) true (send cl) (userID cl)
                                  (username cl)]>) s).
Proof.
  intros Hc Ho. split; [|split; [|split]].
  - intros t Ht. unfold handlePacket. simpl.
    repeat (apply not_elem_of_cons in Ht as [N Ht];
            apply String.eqb_neq in N; rewrite N; clear N).
    unfold sendError. by apply (sendPacket_offered c _ s cl).
  - unfold readPump_turn, sendError. by apply (sendPacket_offered c _ s cl).
  - intros msg Hnc (cl' & Hc' & Hcl').
    destruct (offered_client c (obs.error_response msg) s cl Hc)
      as (cl'' & Hc'' & _ & Hcc & _).
    rewrite Hc'' in Hc'. injection Hc' as <-. apply Hnc.
    exists cl. split; [done|]. by rewrite <- Hcc.
  - unfold handlePacket. simpl. unfold conn_Close, deref, store_client, modify.
    unfold mbind, M_bind. by rewrite Hc.
Qed.

(** X25: when the reader of a connection ends while [Run] is running, the
    client leaves the live set, its send channel is closed if it was live,
    the entry of the online index under its account id is removed if it has
    an identity, and its connection is closed; the other clients, the
    entries under other account ids and the store are untouched.  Once
    [Run] has returned, the end of the reader waits for ever on the
    unregister channel, before anything else is done. *)
Theorem X25_reader_exit (s : State) (c : ptr) (cl : Client) :
  heap s !! c = Some cl →
  (obs.live s c → closed (send cl) = false) →
  (returned (hub s) = true → readPump_exit c s = Block s)
  ∧ (returned (hub s) = false →
     ∃ s', readPump_exit c s = Ret tt s' ∧
       ¬ obs.live s' c ∧ obs.conn_is_closed s' c ∧
       (obs.live s c → obs.send_closed s' c) ∧
       obs.outbox s' c = obs.outbox s c ∧
       online s' = (if String.eqb (userID cl) "" then online s
                    else delete (userID cl) (online s)) ∧
       (∀ c', c' ≠ c → heap s' !! c' = heap s !! c' ∧
                       (obs.live s' c' ↔ obs.live s c')) ∧
       store_ s' = store_ s).
Proof.
  intros Hc Hopen. split.
  - intros Hret. unfold readPump_exit, Run_turn, get.
    unfold mbind, M_bind. by rewrite Hret.
  - intros Hret.
    assert (Hun : ∃ s1 cl1, Run_turn (EvUnregister c) [] s = Ret tt s1 ∧
              heap s1 = <[c := cl1]> (heap s) ∧
              clients (hub s1) = delete c (clients (hub s)) ∧
              online s1 = online s ∧ store_ s1 = store_ s ∧
              id cl1 = id cl ∧ userID cl1 = userID cl ∧
              username cl1 = username cl ∧ buf (send cl1) = buf (send cl) ∧
              (obs.live s c → closed (send cl1) = true)).
    { unfold Run_turn, get. unfold mbind at 1, M_bind. rewrite Hret.
      destruct (clients (hub s) !! c) as [v|] eqn:Hl.
      - destruct (Run_unregister_live c s cl v Hl Hc) as
          (s1 & E & Hh & Hcl & _ & _ & Hon & Hst); [apply Hopen; by exists v|].
        exists s1. eexists. split; [exact E|]. split; [exact Hh|]. done.
      - exists s, cl. split; [by apply Run_unregister_absent|].
        split; [by rewrite insert_id|]. split; [by rewrite delete_id|].
        repeat split; try done. intros [v Hv]. unfold obs.live in *. congruence. }
    destruct Hun as (s1 & cl1 & E1 & Hh1 & Hcl1 & Hon1 & Hst1 & Hid1 & Hu1 & Hn1
                     & Hb1 & Hclosed1).
    assert (Hc1 : heap s1 !! c = Some cl1) by (by rewrite Hh1, lookup_insert_eq).
    assert (Ha : isAuthenticated c s1
                 = Ret (negb (String.eqb (userID cl) "")) s1).
    { rewrite (isAuthenticated_eq c s1 cl1 Hc1). by rewrite Hu1. }
    unfold readPump_exit. rewrite (bind_Ret _ _ _ _ _ E1).
    unfold removeOnline. unfold mbind at 1, M_bind. unfold mbind at 1, M_bind.
    rewrite Ha.
    destruct (String.eqb (userID cl) "") eqn:Eid; simpl.
    + unfold conn_Close, deref, store_client, modify. unfold mbind, M_bind.
      rewrite Hc1. eexists. split; [reflexivity|].
      unfold obs.live, obs.conn_is_closed, obs.send_closed, obs.outbox. simpl.
      rewrite Hcl1, Hh1, Hc, lookup_insert_eq.
      split; [rewrite lookup_delete_eq; by intros [? ?]|].
      split; [eexists; split; [done|done]|].
      split; [intros Hl; eexists; split; [done|]; simpl; by apply Hclosed1|].
      split; [done|]. split; [done|]. split; [|done].
      intros c' Hne. by rewrite !lookup_insert_ne, lookup_delete_ne by done.
    + unfold conn_Close, deref, store_client, modify. unfold mbind, M_bind.
      rewrite Hc1. simpl. rewrite Hc1. eexists. split; [reflexivity|].
      unfold obs.live, obs.conn_is_closed, obs.send_closed, obs.outbox. simpl.
      rewrite Hcl1, Hh1, Hc, lookup_insert_eq, Hu1, Hon1.
      split; [rewrite lookup_delete_eq; by intros [? ?]|].
      split; [eexists; split; [done|done]|].
      split; [intros Hl; eexists; split; [done|]; simpl; by apply Hclosed1|].
      split; [done|]. split; [done|]. split; [|done].
      intros c' Hne. by rewrite !lookup_insert_ne, lookup_delete_ne by done.
Qed.

End handlers_more.

(* ===================================================================== *)
(** ** Accepting a connection, the worker pool, and the client's helper *)
(* ===================================================================== *)

Section pool_more.

Import GoStrings server.

(** One turn of a worker that finds a job in the queue. *)
Lemma worker_turn_job (s : State) msg rest :
  buf (jobs (pool s)) = msg :: rest →
  ∃ s1, worker_turn s = Ret tt s1 ∧
    store_ s1 = store.mkStore (store.users (store_ s)) (store.byID (store_ s))
                  (store.messages (store_ s) ++ [msg])
                  (store.dataDir (store_ s)) ∧
    jobs (pool s1) = mkChan rest (cap (jobs (pool s))) (closed (jobs (pool s))) ∧
    heap s1 = heap s ∧ hub s1 = hub s ∧ online s1 = online s ∧
    (os.wfault (disk s) = None →
     disk s1 = os.mkDisk
                 (<[Join (store.dataDir (store_ s)) "messages.json"
                    := json.JArr (store.marshal_Message
                                    <$> store.messages (store_ s) ++ [msg])]>
                    (os.files (disk s))) None
     ∧ log s1 = log s) ∧
    (os.wfault (disk s) ≠ None → disk s1 = disk s).
Proof.
  intros Hb. unfold worker_turn, get, modify, printf.
  unfold mbind, M_bind, mret, M_ret. rewrite Hb.
  unfold store.SaveMessage, store.saveMessagesLocked, store.writeJSON,
    os.WriteFile. simpl.
  destruct (os.wfault (disk s)) as [w|] eqn:Hw; simpl;
    eexists; (split; [reflexivity|]); simpl; repeat split; done.
Qed.

(** As many turns as there are jobs empty the queue into the store. *)
Lemma worker_turns_drain (l : list protocol.StoredMessage) :
  ∀ s, buf (jobs (pool s)) = l →
  ∃ s', worker_turns (length l) s = Ret tt s' ∧
    store_ s' = store.mkStore (store.users (store_ s)) (store.byID (store_ s))
                  (store.messages (store_ s) ++ l)
                  (store.dataDir (store_ s)) ∧
    jobs (pool s') = mkChan [] (cap (jobs (pool s))) (closed (jobs (pool s))) ∧
    heap s' = heap s ∧ hub s' = hub s ∧ online s' = online s ∧
    (os.wfault (disk s) = None →
     os.wfault (disk s') = None ∧ log s' = log s ∧
     os.files (disk s')
     = match l with
       | [] => os.files (disk s)
       | _ :: _ =>
           <[Join (store.dataDir (store_ s)) "messages.json"
             := json.JArr (store.marshal_Message
                             <$> store.messages (store_ s) ++ l)]>
             (os.files (disk s))
       end).
Proof.
  induction l as [|msg rest IH]; intros s Hb.
  - exists s. simpl. split; [done|]. rewrite app_nil_r.
    split; [by destruct (store_ s)|].
    split; [rewrite <- Hb; by destruct (jobs (pool s))|]. done.
  - destruct (worker_turn_job s msg rest Hb) as
      (s1 & E1 & Hst1 & Hj1 & Hh1 & Hhub1 & Hon1 & Hok1 & _).
    assert (Hb1 : buf (jobs (pool s1)) = rest) by (by rewrite Hj1).
    destruct (IH s1 Hb1) as (s' & E' & Hst' & Hj' & Hh' & Hhub' & Hon' & Hok').
    exists s'. split.
    { simpl. by rewrite (bind_Ret _ _ _ _ _ E1). }
    rewrite Hst', Hj', Hh', Hhub', Hon', Hst1, Hj1. simpl.
    rewrite <- app_assoc. simpl. do 5 (split; [done|]).
    intros Hw. destruct (Hok1 Hw) as [Hd1 Hl1].
    assert (Hw1 : os.wfault (disk s1) = None) by (by rewrite Hd1).
    destruct (Hok' Hw1) as (Hw' & Hl' & Hf').
    split; [done|]. split; [congruence|].
    rewrite Hf', Hst1, Hd1. simpl. rewrite <- app_assoc. simpl.
    destruct rest; [done|]. by rewrite insert_insert_eq.
Qed.

(** The text of [s] from the byte after a prefix [a]. *)
Lemma substring_skip (a r : string) (m : nat) :
  substring (String.length a) m (a +:+ r) = substring 0 m r.
Proof. induction a as [|x a IH]; simpl; [done|exact IH]. Qed.

Lemma substring_prefix (b r : string) :
  substring 0 (String.length b) (b +:+ r) = b.
Proof.
  induction b as [|x b IH]; simpl; [by destruct r|by rewrite IH].
Qed.

Lemma substring_all (r : string) : substring 0 (String.length r) r = r.
Proof. induction r as [|x r IH]; simpl; [done|by rewrite IH]. Qed.

Lemma length_app_string (a r : string) :
  String.length (a +:+ r) = String.length a + String.length r.
Proof. induction a as [|x a IH]; simpl; [done|by rewrite IH]. Qed.

Lemma app_string_assoc (a b c : string) : (a +:+ b) +:+ c = a +:+ b +:+ c.
Proof.
  induction a as [|x a IH]; [done|].
  change (String x ((a +:+ b) +:+ c) = String x (a +:+ b +:+ c)).
  by f_equal.
Qed.

(** [Index] on a text with no double quote, and on a text whose first
    double quote follows [a]. *)
Lemma Index_no_quote (a : string) :
  Contains a client.dquote = false → Index a client.dquote = (-1)%Z.
Proof.
  induction a as [|x a IH]; [done|].
  cbn -[HasPrefix]. intros Hc. apply orb_false_iff in Hc as [Hp Hc].
  rewrite Hp, (IH Hc). done.
Qed.

Lemma Index_first_quote (a r : string) :
  Contains a client.dquote = false →
  Index (a +:+ client.dquote +:+ r) client.dquote = Z.of_nat (String.length a).
Proof.
  induction a as [|x a IH]; intros Hc.
  - simpl. by destruct r.
  - cbn -[HasPrefix] in Hc. apply orb_false_iff in Hc as [Hp Hc].
    change (String x a +:+ client.dquote +:+ r)
      with (String x (a +:+ client.dquote +:+ r)).
    cbn -[HasPrefix Z.of_nat].
    assert (Hp' : HasPrefix (String x (a +:+ client.dquote +:+ r)) client.dquote
                  = false).
    { simpl in Hp |- *. destruct (Ascii.eqb x _); [|done].
      simpl in Hp. by destruct a. }
    rewrite Hp', (IH Hc).
    destruct (Z.eqb_spec (Z.of_nat (String.length a)) (-1)); lia.
Qed.

(** X26: accepting a connection while [Run] is running gives a new client
    named after the incremented connection counter; it is in the live set,
    has no identity, its send channel is open and holds the welcome notice
    as its only packet.  The other clients, the online index and the store
    are untouched.  Once [Run] has returned, the accept waits for ever on
    the register channel. *)
Theorem X26_accepted_connection (s : State) :
  let n : ptr := S (connID s) in
  (returned (hub s) = true → ∃ s', serveConn s = Block s')
  ∧ (returned (hub s) = false →
     ∃ s', serveConn s = Ret n s' ∧ connID s' = n ∧
       obs.live s' n ∧ obs.unauthenticated s' n ∧ obs.send_open s' n ∧
       ¬ obs.conn_is_closed s' n ∧
       obs.outbox s' n
       = [protocol.System
            (fmt.Lit "Welcome to GoChat! Use /register or /login to get started.")] ∧
       (∃ cl, heap s' !! n = Some cl ∧
              id cl = "conn-" +:+ fmt.Itoa (Z.of_nat n)) ∧
       (∀ c, c ≠ n → heap s' !! c = heap s !! c ∧
                     (obs.live s' c ↔ obs.live s c)) ∧
       online s' = online s ∧ store_ s' = store_ s).
Proof.
  intros n. assert (En : n = S (connID s)) by done. clearbody n.
  remember ("conn-" +:+ fmt.Itoa (Z.of_nat n)) as nm eqn:Enm.
  remember (set_heap (<[n := newClient nm]>) (set_connID n s)) as sb eqn:Esb.
  assert (Hsb : heap sb !! n = Some (newClient nm) ∧ hub sb = hub s ∧
                online sb = online s ∧ store_ sb = store_ s ∧ connID sb = n ∧
                ∀ c, c ≠ n → heap sb !! c = heap s !! c).
  { subst sb. simpl. rewrite lookup_insert_eq. repeat split; try done.
    intros c Hne. by rewrite lookup_insert_ne. }
  destruct Hsb as (Hn & Hhub & Hon & Hst & Hid & Hoth).
  assert (Estart : serveConn s
            = (Run_turn (EvRegister n) [];;
               sendSystem n
                 (fmt.Lit "Welcome to GoChat! Use /register or /login to get started.");;
               mret n) sb).
  { rewrite Esb, Enm, En. reflexivity. }
  rewrite Estart. clear Estart. split; intros Hret.
  - exists sb. unfold Run_turn, get. unfold mbind, M_bind.
    by rewrite Hhub, Hret.
  - assert (Ereg : Run_turn (EvRegister n) [] sb = Run_register n sb).
    { unfold Run_turn, get. unfold mbind, M_bind. by rewrite Hhub, Hret. }
    destruct (Run_register_eq n sb (newClient nm) Hn) as
      (sc & Esc & Hhc & Hcc & _ & _ & Honc & Hstc).
    assert (Hidc : connID sc = connID sb).
    { revert Esc. unfold Run_register, deref, printf, modify, get.
      unfold mbind, M_bind, mret, M_ret. simpl. rewrite Hn.
      by intros [= <-]. }
    rewrite <- Ereg in Esc. rewrite (bind_Ret _ _ _ _ _ Esc).
    assert (Hnc : heap sc !! n = Some (newClient nm)) by (by rewrite Hhc).
    assert (Esend : sendSystem n
              (fmt.Lit "Welcome to GoChat! Use /register or /login to get started.")
              sc
            = Ret tt (obs.queued n
                (protocol.System
                   (fmt.Lit "Welcome to GoChat! Use /register or /login to get started."))
                sc)).
    { unfold sendSystem. apply (sendPacket_room n _ sc (newClient nm) Hnc);
        [done|]. simpl. unfold sendBufSize. lia. }
    rewrite (bind_Ret _ _ _ _ _ Esend).
    eexists. split; [reflexivity|].
    unfold obs.queued. rewrite Hnc.
    unfold obs.live, obs.unauthenticated, obs.send_open, obs.conn_is_closed,
      obs.outbox. simpl. rewrite !lookup_insert_eq, Hcc, Hhub.
    split; [congruence|]. split; [by rewrite lookup_insert_eq|].
    split; [by eexists|]. split; [by eexists|].
    split; [by intros (cl & [= <-] & ?)|].
    split; [done|]. split; [by eexists|].
    split; [|by rewrite Honc, Hstc, Hon, Hst].
    intros c Hne. rewrite !lookup_insert_ne, Hhc by done. by rewrite Hoth.
Qed.

(** X27: after [stop] of the pool, a worker that takes as many turns as
    there are jobs in the queue appends them to the message log of the store
    in queue order, leaves the queue empty, and its next turn leaves the
    loop (it returns instead of waiting).  When the disk takes the writes,
    the file of the messages then holds the whole log and nothing is
    logged.  A chat job submitted after [stop] panics, and a second [stop]
    panics. *)
Theorem X27_stop_drains_job_queue (s : State) :
  closed (jobs (pool s)) = false →
  ∃ s',
    (stop;; worker_turns (length (buf (jobs (pool s))));; worker_turn) s
    = Ret tt s' ∧
    store.messages (store_ s')
    = store.messages (store_ s) ++ buf (jobs (pool s)) ∧
    store.users (store_ s') = store.users (store_ s) ∧
    buf (jobs (pool s')) = [] ∧
    (os.wfault (disk s) = None → buf (jobs (pool s)) ≠ [] →
     os.ReadFile (disk s') (Join (store.dataDir (store_ s)) "messages.json")
     = Some (json.JArr (store.marshal_Message <$> store.messages (store_ s')))
     ∧ log s' = log s) ∧
    (∀ msg, submit msg s' = Panic) ∧
    stop s' = Panic.
Proof.
  intros Hop.
  assert (E0 : stop s
               = Ret tt (set_pool (mkPool (mkChan (buf (jobs (pool s)))
                                             (cap (jobs (pool s))) true)) s)).
  { unfold stop, get, modify, close. unfold mbind, M_bind. simpl.
    by rewrite Hop. }
  remember (set_pool _ s) as s0 eqn:Es0.
  assert (Hb0 : buf (jobs (pool s0)) = buf (jobs (pool s))) by (by subst s0).
  destruct (worker_turns_drain (buf (jobs (pool s))) s0 Hb0) as
    (s' & E' & Hst' & Hj' & Hh' & Hhub' & Hon' & Hok').
  assert (Hs0 : store_ s0 = store_ s ∧ disk s0 = disk s ∧ log s0 = log s)
    by (by subst s0).
  destruct Hs0 as (Hst0 & Hd0 & Hl0).
  assert (Hc0 : closed (jobs (pool s0)) = true) by (by subst s0).
  assert (Elast : worker_turn s' = Ret tt s').
  { unfold worker_turn, get. unfold mbind, M_bind, mret, M_ret.
    rewrite Hj'. simpl. by rewrite Hc0. }
  exists s'. split.
  { rewrite (bind_Ret _ _ _ _ _ E0). rewrite (bind_Ret _ _ _ _ _ E').
    exact Elast. }
  rewrite Hst', Hj', Hst0. simpl. split; [done|]. split; [done|].
  split; [done|]. split; [|split].
  - intros Hw Hne. rewrite Hd0, Hl0 in Hok'.
    destruct (Hok' Hw) as (_ & Hl & Hf). split; [|done].
    unfold os.ReadFile. rewrite Hf, Hst0.
    destruct (buf (jobs (pool s))); [done|]. by rewrite lookup_insert_eq.
  - intros msg. unfold submit, get, try_send. unfold mbind, M_bind.
    rewrite Hj'. simpl. by rewrite Hc0.
  - unfold stop, get, close. unfold mbind, M_bind. rewrite Hj'. simpl.
    by rewrite Hc0.
Qed.

(** X29: [extractQuoted] returns the text between the first two double
    quotes of its argument, whatever follows the second one; it returns the
    empty string when the argument has no double quote or only one. *)
Theorem X29_extractQuoted_between_quotes (a b rest : string) :
  Contains a client.dquote = false →
  Contains b client.dquote = false →
  client.extractQuoted (a +:+ client.dquote +:+ b +:+ client.dquote +:+ rest) = b
  ∧ client.extractQuoted (a +:+ client.dquote +:+ b) = ""
  ∧ client.extractQuoted a = "".
Proof.
  intros Ha Hb.
  assert (Hz : ∀ n : nat, (Z.of_nat n =? -1)%Z = false).
  { intros n. apply Z.eqb_neq. lia. }
  assert (Hfrom : ∀ r, client.slice_from (a +:+ client.dquote +:+ r)
                         (Z.of_nat (String.length a) + 1) = r).
  { intros r. unfold client.slice_from.
    replace (Z.to_nat (Z.of_nat (String.length a) + 1))
      with (String.length (a +:+ client.dquote)) by
      (rewrite length_app_string; simpl; lia).
    replace (a +:+ client.dquote +:+ r) with ((a +:+ client.dquote) +:+ r)
      by apply app_string_assoc.
    rewrite substring_skip, length_app_string.
    replace (String.length (a +:+ client.dquote) + String.length r
             - String.length (a +:+ client.dquote)) with (String.length r)
      by lia.
    apply substring_all. }
  split; [|split].
  - unfold client.extractQuoted.
    rewrite (Index_first_quote a _ Ha), Hz. cbn zeta.
    rewrite Hfrom, (Index_first_quote b rest Hb), Hz.
    unfold client.slice.
    replace (Z.to_nat (Z.of_nat (String.length a) + 1))
      with (String.length (a +:+ client.dquote)) by
      (rewrite length_app_string; simpl; lia).
    replace (Z.to_nat (Z.of_nat (String.length a) + 1
                       + Z.of_nat (String.length b))
             - String.length (a +:+ client.dquote))
      with (String.length b) by (rewrite length_app_string; simpl; lia).
    replace (a +:+ client.dquote +:+ b +:+ client.dquote +:+ rest)
      with ((a +:+ client.dquote) +:+ (b +:+ client.dquote +:+ rest))
      by apply app_string_assoc.
    rewrite substring_skip. apply substring_prefix.
  - unfold client.extractQuoted.
    rewrite (Index_first_quote a b Ha), Hz. cbn zeta.
    rewrite Hfrom, (Index_no_quote b Hb). done.
  - unfold client.extractQuoted. by rewrite (Index_no_quote a Ha).
Qed.

End pool_more.

(* ===================================================================== *)
(** ** The further properties on the sample data *)
(* ===================================================================== *)

Section more_examples.

Import GoStrings server.


Lemma ranges_st0 : ranges [1; 2; 3] (clients (hub sample.st0)).
Proof. unfold ranges. vm_compute. apply (Permutation_cons_append [2; 3] 1). Qed.

Lemma X1_register_then_authenticate_witness :
  ∃ s' d' u err,
    store.RegisterUser (H := sample.digest) 5%Z 7%Z 9%Z "Carol" "pw3"
      sample.store3 sample.disk_ro = (s', d', (Some u, err)) ∧
    store.Authenticate (H := sample.digest) "CAROL" "pw3" s' = (Some u, None).
Proof.
  do 4 eexists. split; [vm_compute; reflexivity|].
  eapply (X1_register_then_authenticate (H := sample.digest) 5%Z 7%Z 9%Z
            "Carol" "pw3" "CAROL" sample.store3 _ sample.disk_ro).
  - vm_compute. reflexivity.
  - reflexivity.
Defined.



Lemma X8_new_without_files_witness :
  store.New "data" sample.disk_ok = (Some (store.mkStore ∅ ∅ [] "data"), None).
Proof.
  apply (X8_new_without_files "data" sample.disk_ok); reflexivity.
Defined.


Lemma X11_register_adds_to_live_set_witness :
  ∃ s', Run_register 2 sample.st0 = Ret tt s' ∧
        obs.live s' 2 ∧ heap s' = heap sample.st0 ∧
        clients (hub s') = clients (hub sample.st0).
Proof.
  destruct (X11_register_adds_to_live_set sample.st0 2)
    as (s' & E & Hl & _ & Hh & _ & _ & _ & Hsame).
  - by exists sample.c_anon.
  - exists s'. split; [exact E|]. split; [exact Hl|]. split; [exact Hh|].
    apply Hsame. reflexivity.
Defined.

Lemma X12_unregister_once_witness :
  ∃ s', Run_unregister 2 sample.st0 = Ret tt s' ∧
        ¬ obs.live s' 2 ∧ obs.send_closed s' 2 ∧
        Run_unregister 2 s' = Ret tt s'.
Proof.
  destruct (X12_unregister_once sample.st0 2)
    as (s' & E & Hl & Hc & _ & _ & _ & Hagain).
  - eexists. vm_compute. reflexivity.
  - exists sample.c_anon. split; reflexivity.
  - exists s'. split; [exact E|]. split; [exact Hl|].
    split; [exact Hc | exact Hagain].
Defined.

Lemma X13_run_turn_keeps_hub_ok_witness :
  Run_turn (EvUnregister 2) [1; 2; 3] sample.st0 ≠ Panic
  ∧ ∀ s', Run_turn (EvUnregister 2) [1; 2; 3] sample.st0 = Ret tt s' →
          returned (hub s') = false → obs.hub_ok s'.
Proof.
  apply (X13_run_turn_keeps_hub_ok sample.st0 (EvUnregister 2) [1; 2; 3]).
  - exact st0_hub_ok.
  - exact ranges_st0.
  - intros c Hc. discriminate Hc.
Defined.


Lemma X15_broadcasts_keep_order_witness :
  ∃ s1 s2,
    Run_broadcast [1; 2; 3] (protocol.System (fmt.Lit "one")) sample.st0
    = Ret tt s1 ∧
    Run_broadcast [1; 2] (protocol.System (fmt.Lit "two")) s1 = Ret tt s2 ∧
    obs.outbox s2 1
    = [protocol.System (fmt.Lit "one"); protocol.System (fmt.Lit "two")].
Proof.
  eexists. 
  assert (E1 : Run_broadcast [1; 2; 3] (protocol.System (fmt.Lit "one")) sample.st0
               = Ret tt ?[s1]) by (vm_compute; reflexivity).
  destruct (X15_broadcasts_keep_order sample.st0
              (protocol.System (fmt.Lit "one")) (protocol.System (fmt.Lit "two"))
              [1; 2; 3] [1; 2] _ st0_hub_ok ranges_st0 E1)
    as (s2 & E2 & Hq).
  - unfold ranges. vm_compute. apply perm_swap.
  - exists s2. split; [exact E1|]. split; [exact E2|].
    destruct (Hq 1 sample.c_alice) as [_ Ho].
    + eexists. vm_compute. reflexivity.
    + reflexivity.
    + vm_compute. lia.
    + exact Ho.
Defined.

Lemma X16_chat_reaches_live_clients_witness :
  ∃ s1 s2,
    handleChat sample.env0 1 sample.chat_hi sample.st0 = Ret tt s1 ∧
    Run_turn EvBroadcast [1; 2; 3] s1 = Ret tt s2 ∧
    obs.outbox s2 2
    = [protocol.Broadcast (protocol.mkBroadcast "u-alice" "Alice" "hi" 9%Z)].
Proof.
  destruct (X16_chat_reaches_live_clients sample.env0 sample.st0 1
              sample.c_alice sample.chat_hi (protocol.mkChat "hi") [1; 2; 3])
    as (s1 & s2 & E1 & E2 & _ & Hout).
  - reflexivity.
  - discriminate.
  - reflexivity.
  - discriminate.
  - reflexivity.
  - reflexivity.
  - vm_compute. lia.
  - reflexivity.
  - reflexivity.
  - exact st0_hub_ok.
  - exact ranges_st0.
  - exists s1, s2. split; [exact E1|]. split; [exact E2|].
    destruct (Hout 2) as [_ Ho].
    + eexists. vm_compute. reflexivity.
    + exists sample.c_anon. split; [reflexivity | vm_compute; lia].
    + exact Ho.
Defined.

Lemma X17_send_to_dropped_client_panics_witness :
  ∃ s', Run_broadcast [1; 2; 3] (protocol.System (fmt.Lit "hello")) sample.st0
        = Ret tt s' ∧
        sendPacket 3 (protocol.System (fmt.Lit "again")) s' = Panic ∧
        readPump_turn (H := sample.digest) sample.env0 3 None s' = Panic.
Proof.
  destruct (X17_send_to_dropped_client_panics (H := sample.digest) sample.env0
              sample.st0 3 (protocol.System (fmt.Lit "hello")) [1; 2; 3])
    as (s' & E & Hp & Hr).
  - exact st0_hub_ok.
  - exact ranges_st0.
  - eexists. vm_compute. reflexivity.
  - exists sample.c_slow. split; [reflexivity | vm_compute; lia].
  - exists s'. split; [exact E|]. split; [apply Hp | exact Hr].
Defined.

Lemma X18_login_failure_only_answers_witness :
  ∃ msg s',
    handleLogin (H := sample.digest) 2 sample.login_bad sample.st0 = Ret tt s' ∧
    s' = obs.offered 2 (obs.error_response msg) sample.st0 ∧
    obs.identity s' 2 = protocol.mkInfo "" "" ∧
    online s' = ∅.
Proof.
  destruct (X18_login_failure_only_answers (H := sample.digest) sample.st0 2
              sample.c_anon sample.login_bad)
    as (msg & s' & E & Hs & Hi & Ho & _).
  - reflexivity.
  - reflexivity.
  - intros p Hp _ _. vm_compute in Hp. injection Hp as <-.
    vm_compute. discriminate.
  - exists msg, s'. split; [exact E|]. split; [exact Hs|].
    split; [exact Hi | exact Ho].
Defined.

Lemma X19_login_success_effect_witness :
  ∃ s',
    handleLogin (H := sample.digest) 2 sample.login_alice sample.st0 = Ret tt s' ∧
    obs.identity s' 2 = protocol.mkInfo "u-alice" "Alice" ∧
    online s' = <["u-alice" := 2]> ∅ ∧
    buf (broadcast (hub s'))
    = [protocol.System (fmt.Sprintf "%s joined the chat" [fmt.ArgS "Alice"])].
Proof.
  destruct (X19_login_success_effect (H := sample.digest) sample.st0 2
              sample.c_anon sample.login_alice (protocol.mkAuth "alice" "pw")
              sample.alice)
    as (s' & E & Hi & Ho & Hb & _).
  - reflexivity.
  - reflexivity.
  - reflexivity.
  - vm_compute. lia.
  - reflexivity.
  - discriminate.
  - discriminate.
  - vm_compute. reflexivity.
  - exists s'. split; [exact E|]. split; [exact Hi|].
    split; [exact Ho | exact Hb].
Defined.

Lemma X20_register_refused_only_answers_witness :
  ∃ msg s',
    handleRegister (H := sample.digest) sample.env0 2 sample.register_ALICE
      sample.st0 = Ret tt s' ∧
    s' = obs.offered 2 (obs.error_response msg) sample.st0 ∧
    store_ s' = sample.store3 ∧ disk s' = sample.disk_ok.
Proof.
  destruct (X20_register_refused_only_answers (H := sample.digest) sample.env0
              sample.st0 2 sample.c_anon sample.register_ALICE)
    as (msg & s' & E & Hs & Hst & Hd & _).
  - reflexivity.
  - reflexivity.
  - intros p Hp _ _. vm_compute in Hp. injection Hp as <-.
    exists sample.alice. reflexivity.
  - exists msg, s'. split; [exact E|]. split; [exact Hs|].
    split; [exact Hst | exact Hd].
Defined.

Lemma X21_register_success_effect_witness :
  ∃ s',
    handleRegister (H := sample.digest) sample.env0 2 sample.register_carol
      sample.st0 = Ret tt s' ∧
    is_Some (store.users (store_ s') !! "carol") ∧
    obs.identity s' 2 = protocol.mkInfo (store.generateID 5%Z 7%Z) "Carol" ∧
    online s' = <[store.generateID 5%Z 7%Z := 2]> ∅.
Proof.
  destruct (X21_register_success_effect (H := sample.digest) sample.env0
              sample.st0 2 sample.c_anon sample.register_carol
              (protocol.mkAuth "Carol" "pw3"))
    as (s' & E & Hu & _ & Hi & Ho & _).
  - reflexivity.
  - reflexivity.
  - reflexivity.
  - vm_compute. lia.
  - reflexivity.
  - discriminate.
  - discriminate.
  - reflexivity.
  - reflexivity.
  - exists s'. split; [exact E|]. split; [eexists; exact Hu|].
    split; [exact Hi | exact Ho].
Defined.

Lemma X22_register_write_error_witness :
  ∃ s',
    handleRegister (H := sample.digest) sample.env0 2 sample.register_carol
      sample.st_ro = Ret tt s' ∧
    obs.identity s' 2 = protocol.mkInfo "" "" ∧
    online s' = ∅ ∧
    obs.outbox s' 2 = [obs.error_response (fmt.Lit "read-only file system")] ∧
    is_Some (store.users (store_ s') !! "carol").
Proof.
  destruct (X22_register_write_error (H := sample.digest) sample.env0
              sample.st_ro 2 sample.c_anon sample.register_carol
              (protocol.mkAuth "Carol" "pw3") "read-only file system")
    as (s' & E & Hi & Ho & _ & _ & Hout & Hu & _).
  - reflexivity.
  - reflexivity.
  - reflexivity.
  - discriminate.
  - discriminate.
  - reflexivity.
  - reflexivity.
  - exists s'. split; [exact E|]. split; [exact Hi|]. split; [exact Ho|].
    split; [apply Hout; vm_compute; lia | eexists; exact Hu].
Defined.

Lemma X23_users_lists_online_index_witness :
  handleUsers 1 sample.st_online
  = Ret tt (obs.offered 1
              (protocol.Response
                 (protocol.mkResponse true
                    (fmt.Sprintf "%d user(s) online" [fmt.ArgZ 1%Z])
                    (protocol.Users [protocol.mkInfo "u-alice" "Alice"])))
              sample.st_online).
Proof.
  destruct (X23_users_lists_online_index sample.st_online 1 sample.c_alice)
    as [E _].
  - reflexivity.
  - discriminate.
  - reflexivity.
  - exact st_online_valid.
  - exact E.
Defined.

Lemma X24_unknown_malformed_quit_witness :
  handlePacket (H := sample.digest) sample.env0 2
    (protocol.mkIncoming "dance" None) sample.st0
  = Ret tt (obs.offered 2
              (obs.error_response
                 (fmt.Sprintf "unknown packet type %q" [fmt.ArgS "dance"]))
              sample.st0)
  ∧ readPump_turn (H := sample.digest) sample.env0 2 None sample.st0
    = Ret tt (obs.offered 2 (obs.error_response (fmt.Lit "malformed packet"))
                sample.st0).
Proof.
  destruct (X24_unknown_malformed_quit (H := sample.digest) sample.env0
              sample.st0 2 sample.c_anon None) as (Hu & Hm & _).
  - reflexivity.
  - reflexivity.
  - split; [|exact Hm]. apply Hu.
    apply (bool_decide_unpack _). vm_compute. exact I.
Defined.

Lemma X25_reader_exit_witness :
  ∃ s', readPump_exit 1 sample.st_online = Ret tt s' ∧
        ¬ obs.live s' 1 ∧ obs.conn_is_closed s' 1 ∧ obs.send_closed s' 1 ∧
        online s' = delete "u-alice" (online sample.st_online).
Proof.
  destruct (X25_reader_exit sample.st_online 1 sample.c_alice) as [_ Hr].
  - reflexivity.
  - intros _. reflexivity.
  - destruct (Hr eq_refl) as (s' & E & Hl & Hc & Hs & _ & Ho & _).
    exists s'. split; [exact E|]. split; [exact Hl|]. split; [exact Hc|].
    split; [apply Hs; eexists; vm_compute; reflexivity | exact Ho].
Defined.

Lemma X27_stop_drains_job_queue_witness :
  ∃ s',
    (stop;; worker_turns 2;; worker_turn) sample.st_jobs = Ret tt s' ∧
    store.messages (store_ s') = [sample.m1; sample.m2] ∧
    buf (jobs (pool s')) = [] ∧
    os.ReadFile (disk s') (Join "data" "messages.json")
    = Some (json.JArr (store.marshal_Message <$> store.messages (store_ s'))) ∧
    submit sample.m3 s' = Panic.
Proof.
  destruct (X27_stop_drains_job_queue sample.st_jobs)
    as (s' & E & Hm & _ & Hb & Hf & Hs & _).
  - reflexivity.
  - exists s'. split; [exact E|]. split; [exact Hm|]. split; [exact Hb|].
    split; [|apply Hs]. apply Hf; [reflexivity | discriminate].
Defined.

Lemma X28_chat_is_persisted_by_worker_witness :
  ∃ s1 s2,
    handleChat sample.env0 1 sample.chat_hi sample.st0 = Ret tt s1 ∧
    worker_turn s1 = Ret tt s2 ∧
    store.messages (store_ s2)
    = [sample.m1; sample.m2; sample.m3;
       protocol.mkMsg (fmt.Itoa (time.UnixNano 9%Z)) "u-alice" "Alice" "hi" 9%Z] ∧
    log s2 = log s1.
Proof.
  destruct (X28_chat_is_persisted_by_worker sample.env0 sample.st0 1
              sample.c_alice sample.chat_hi (protocol.mkChat "hi"))
    as (s1 & s2 & E1 & E2 & Hm & _ & _ & Hl).
  - reflexivity.
  - discriminate.
  - reflexivity.
  - discriminate.
  - reflexivity.
  - vm_compute. lia.
  - reflexivity.
  - reflexivity.
  - vm_compute. lia.
  - exists s1, s2. split; [exact E1|]. split; [exact E2|].
    split; [exact Hm | apply Hl; reflexivity].
Defined.

Lemma X29_extractQuoted_between_quotes_witness :
  client.extractQuoted
    ("logged in as " +:+ client.dquote +:+ "Alice" +:+ client.dquote +:+ "!")
  = "Alice"
  ∧ client.extractQuoted ("logged in as " +:+ client.dquote +:+ "Alice") = ""
  ∧ client.extractQuoted "logged in as " = "".
Proof.
  apply (X29_extractQuoted_between_quotes "logged in as " "Alice" "!");
    reflexivity.
Defined.

End more_examples.
